(** * mouse_capture: the PS/2 report decoder, the click classifier and the
      event loop of [src/mouse_capture.cpp], embedded as executable
      definitions, with the properties of its specification.

    The program reads 4-byte IntelliMouse reports from /dev/input/mice,
    classifies button presses (single click, double click, quit gesture)
    with a 300 ms deadline, and prints one symbol per event.

    Modelling choices:
    - [long], [time_t] and [suseconds_t] are 64-bit signed integers (LP64
      Linux); values are kept in [Z] and every arithmetic result is reduced
      with [wrap_long]; the C division is [Z.quot];
    - the operating system is a state [Sys]: a clock answering each
      [gettimeofday] call, and the trace of every system or library call
      the process made, in order; standard output is read off that trace;
    - [assert] aborts: a computation is [Ok] or [AssertFail];
    - the device is a script: the results [open], [write], [select] and
      [read] will give; the loops of [main] recurse on those queues. *)

From Stdlib Require Import ZArith List String Ascii Bool Lia.
From Stdlib Require Import Strings.Byte.
Import ListNotations.
Open Scope Z_scope.

(** ** Machine integers *)

Definition wrap_long (v : Z) : Z := (v + 2 ^ 63) mod 2 ^ 64 - 2 ^ 63.

(** [signed char] value of a byte read from the device. *)
Definition signed_char (b : byte) : Z :=
  let v := Z.of_N (Byte.to_N b) in
  if v <? 128 then v else v - 256.

Record timeval := mk_timeval { tv_sec : Z; tv_usec : Z }.

(** The expression of [Timer], line 128:
    [(tv.tv_sec*1000 + tv.tv_usec/1000)
       - (m_tv_cur.tv_sec*1000 + m_tv_cur.tv_usec/1000)]. *)
Definition tv_ms (tv : timeval) : Z :=
  wrap_long (wrap_long (tv_sec tv * 1000) + Z.quot (tv_usec tv) 1000).

Definition tv_interval_ms (tv m_tv_cur : timeval) : Z :=
  wrap_long (tv_ms tv - tv_ms m_tv_cur).

(** ** The wire format: [struct imps2_data] *)

Module Imps2.

Record imps2_data := mk_imps2_data {
  btn_left : bool;
  btn_right : bool;
  btn_middle : bool;
  NONE : bool;
  x_sign : bool;
  y_sign : bool;
  x_overflow : bool;
  y_overflow : bool;
  x : Z;
  y : Z;
  z : Z
}.

Definition sizeof_data : Z := 4.

Definition byte_at (i : nat) (buf : list byte) : byte := nth i buf x00.

Definition bit (n : Z) (b : byte) : bool :=
  Z.testbit (Z.of_N (Byte.to_N b)) n.

(** The overlay of the packed struct on the four bytes [read] stored:
    the bit-fields of byte 0 from the least significant bit up (the
    layout of GCC on the little-endian Linux targets, and the order of the
    PS/2 protocol), then the three [signed char] members. *)
Definition overlay (buf : list byte) : imps2_data :=
  let b0 := byte_at 0 buf in
  {| btn_left := bit 0 b0;
     btn_right := bit 1 b0;
     btn_middle := bit 2 b0;
     NONE := bit 3 b0;
     x_sign := bit 4 b0;
     y_sign := bit 5 b0;
     x_overflow := bit 6 b0;
     y_overflow := bit 7 b0;
     x := signed_char (byte_at 1 buf);
     y := signed_char (byte_at 2 buf);
     z := signed_char (byte_at 3 buf) |}.

End Imps2.

(** ** The operating system as seen by the process *)

Record read_ret := mk_read_ret {
  nLen : Z;               (* value returned by [read] *)
  rd_errno : Z;           (* [errno] after the call *)
  rd_data : list byte     (* the bytes stored in [data] *)
}.

Record select_ret := mk_select_ret {
  sel_ret : Z;            (* value returned by [select] *)
  sel_isset : bool        (* [FD_ISSET(mice_fd, &fdset)] afterwards *)
}.

Inductive event : Type :=
| EvOpen (fd : Z)
| EvWrite (nRet : Z)
| EvSelect (r : select_ret)
| EvRead (r : read_ret)
| EvGettimeofday (tv : timeval)
| EvPrintf (line : string)        (* [printf] followed by [fflush(stdout)] *)
| EvClose (fd : Z).

Record Sys := mk_Sys {
  clock : nat -> timeval;   (* the answer to the n-th [gettimeofday] *)
  ticks : nat;              (* number of [gettimeofday] calls so far *)
  trace : list event
}.

Definition log (e : event) (s : Sys) : Sys :=
  {| clock := clock s; ticks := ticks s; trace := trace s ++ [e] |}.

Definition printed (e : event) : list string :=
  match e with
  | EvPrintf line => [line]
  | _ => []
  end.

(** What the process wrote on standard output. *)
Definition stdout_of (t : list event) : list string := flat_map printed t.
Definition stdout (s : Sys) : list string := stdout_of (trace s).

Definition EAGAIN : Z := 11.

(** ** Computations: state passing over [Sys], with [assert] *)

Inductive res (A : Type) : Type :=
| Ok (a : A)
| AssertFail.
Arguments Ok {A} a.
Arguments AssertFail {A}.

Definition M (A : Type) : Type := Sys -> res A * Sys.

Definition ret {A} (a : A) : M A := fun s => (Ok a, s).

Definition bind {A B} (m : M A) (f : A -> M B) : M B :=
  fun s =>
    match m s with
    | (Ok a, s') => f a s'
    | (AssertFail, s') => (AssertFail, s')
    end.

Declare Scope proc_scope.
Delimit Scope proc_scope with proc.
Notation "v <- m ;; k" := (bind m (fun v => k))
  (at level 61, m at next level, right associativity) : proc_scope.
Notation "m ;; k" := (bind m (fun _ => k))
  (at level 61, right associativity) : proc_scope.
Open Scope proc_scope.

Definition assert (b : bool) : M unit :=
  fun s => if b then (Ok tt, s) else (AssertFail, s).

Definition gettimeofday : M timeval :=
  fun s =>
    let tv := clock s (ticks s) in
    (Ok tv, {| clock := clock s; ticks := S (ticks s);
               trace := trace s ++ [EvGettimeofday tv] |}).

Definition printf (line : string) : M unit :=
  fun s => (Ok tt, log (EvPrintf line) s).

Definition close (fd : Z) : M unit :=
  fun s => (Ok tt, log (EvClose fd) s).

Definition nl : string := String (ascii_of_nat 10) EmptyString.
Definition line (symbol : string) : string := (symbol ++ nl)%string.

(** ** [class ButtonProcess] *)

Definition BTN_LEFT : Z := 0.
Definition BTN_RIGHT : Z := 1.
Definition BTN_NULL : Z := 2.

Record ButtonProcess := mk_ButtonProcess {
  m_btnPre : Z;
  m_tv_cur : timeval;
  m_bTimer : bool
}.

Definition set_btnPre (v : Z) (this : ButtonProcess) : ButtonProcess :=
  {| m_btnPre := v; m_tv_cur := m_tv_cur this; m_bTimer := m_bTimer this |}.
Definition set_tv_cur (v : timeval) (this : ButtonProcess) : ButtonProcess :=
  {| m_btnPre := m_btnPre this; m_tv_cur := v; m_bTimer := m_bTimer this |}.
Definition set_bTimer (v : bool) (this : ButtonProcess) : ButtonProcess :=
  {| m_btnPre := m_btnPre this; m_tv_cur := m_tv_cur this; m_bTimer := v |}.

(** The constructor, lines 57-63. *)
Definition ButtonProcess_new : ButtonProcess :=
  {| m_btnPre := BTN_NULL;
     m_tv_cur := {| tv_sec := 0; tv_usec := 0 |};
     m_bTimer := false |}.

Definition EnableTimer (this : ButtonProcess) : M ButtonProcess :=
  let this := set_bTimer true this in
  tv <- gettimeofday ;;
  ret (set_tv_cur tv this).

Definition DisableTimer (this : ButtonProcess) : ButtonProcess :=
  set_bTimer false this.

Definition IsTimerEnable (this : ButtonProcess) : bool := m_bTimer this.

(** [bool Button(int type)], lines 81-117. *)
Definition Button (type : Z) (this : ButtonProcess) : M (bool * ButtonProcess) :=
  assert ((type =? BTN_LEFT) || (type =? BTN_RIGHT)) ;;
  if m_btnPre this =? BTN_NULL then
    this <- EnableTimer (set_btnPre type this) ;;
    ret (true, this)
  else if negb (m_btnPre this =? type) then
    printf (line "q") ;;
    ret (false, DisableTimer (set_btnPre BTN_NULL this))
  else
    (if m_btnPre this =? BTN_LEFT
     then printf (line "z")
     else printf (line "x")) ;;
    ret (true, DisableTimer (set_btnPre BTN_NULL this)).

(** [void Timer()], lines 119-150. *)
Definition Timer (this : ButtonProcess) : M ButtonProcess :=
  if IsTimerEnable this then
    tv <- gettimeofday ;;
    if 300 <=? tv_interval_ms tv (m_tv_cur this) then
      assert (negb (m_btnPre this =? BTN_NULL)) ;;
      let this := DisableTimer this in
      (if m_btnPre this =? BTN_LEFT
       then printf (line "<")
       else printf (line ">")) ;;
      ret (set_btnPre BTN_NULL this)
    else ret this
  else ret this.

(** ** [main] *)

(** What the device will answer: the descriptor [open] returns, the
    result of the mode-switch [write], and the results of the successive
    [select] and [read] calls. *)
Record Device := mk_Device {
  open_ret : Z;
  write_ret : Z;
  select_q : list select_ret;
  read_q : list read_ret
}.

(** How a run ends: a [return] of [main], an [assert] that failed, or the
    script of the device was used up while the process was still looping. *)
Inductive outcome : Type :=
| Exit (status : Z)
| Aborted
| Unfinished.

Inductive ctl : Type :=
| Next (btnProcess : ButtonProcess)   (* fall through to the next [read] *)
| Return (status : Z).                (* [return status;] *)

Import Imps2.

(** The treatment of one full-size report, lines 226-270. *)
Definition main_dispatch (mice_fd : Z) (data : imps2_data)
    (btnProcess : ButtonProcess) : M ctl :=
  if (z data =? 0) && (x data =? 0) && (y data =? 0) then
    if btn_left data then
      r <- Button BTN_LEFT btnProcess ;;
      if negb (fst r)
      then close mice_fd ;; ret (Return 0)
      else ret (Next (snd r))
    else if btn_right data then
      r <- Button BTN_RIGHT btnProcess ;;
      if negb (fst r)
      then close mice_fd ;; ret (Return 0)
      else ret (Next (snd r))
    else if btn_middle data then
      printf (line "p") ;;
      ret (Next btnProcess)
    else ret (Next btnProcess)
  else
    if negb (z data =? 0) then
      (if z data >? 0
       then printf (line "9")
       else printf (line "0")) ;;
      ret (Next btnProcess)
    else ret (Next btnProcess).

Inductive drained : Type :=
| Break (rest : list read_ret) (btnProcess : ButtonProcess)
| Stop (o : outcome).

(** The inner [while (true)] that empties the device, lines 200-273. *)
Fixpoint main_drain (mice_fd : Z) (rq : list read_ret)
    (btnProcess : ButtonProcess) (s : Sys) : drained * Sys :=
  match rq with
  | [] => (Stop Unfinished, s)
  | r :: rq' =>
      let s := log (EvRead r) s in
      if nLen r =? 0 then (Stop (Exit 1), s)
      else if nLen r =? -1 then
        if negb (rd_errno r =? EAGAIN)
        then (Stop (Exit 1), s)
        else (Break rq' btnProcess, s)
      else if nLen r =? sizeof_data then
        match main_dispatch mice_fd (overlay (rd_data r)) btnProcess s with
        | (Ok (Next btnProcess'), s') => main_drain mice_fd rq' btnProcess' s'
        | (Ok (Return status), s') => (Stop (Exit status), s')
        | (AssertFail, s') => (Stop Aborted, s')
        end
      else main_drain mice_fd rq' btnProcess s
  end.

(** The outer [while (true)], lines 178-278: [select] with a 20 ms
    timeout, the drain when the descriptor is readable, then [Timer]. *)
Fixpoint main_loop (mice_fd : Z) (sq : list select_ret) (rq : list read_ret)
    (btnProcess : ButtonProcess) (s : Sys) : outcome * Sys :=
  match sq with
  | [] => (Unfinished, s)
  | sel :: sq' =>
      let s := log (EvSelect sel) s in
      if sel_ret sel <? 0 then (Exit 1, s)
      else
        match (if sel_isset sel
               then main_drain mice_fd rq btnProcess s
               else (Break rq btnProcess, s)) with
        | (Stop o, s') => (o, s')
        | (Break rq' btnProcess', s') =>
            match Timer btnProcess' s' with
            | (Ok btnProcess'', s'') =>
                main_loop mice_fd sq' rq' btnProcess'' s''
            | (AssertFail, s'') => (Aborted, s'')
            end
        end
  end.

Definition main (dev : Device) (s : Sys) : outcome * Sys :=
  let mice_fd := open_ret dev in
  let s := log (EvOpen mice_fd) s in
  if mice_fd =? -1 then (Exit 1, s)
  else
    let nRet := write_ret dev in
    let s := log (EvWrite nRet) s in
    if nRet <? 0 then (Exit 1, s)
    else main_loop mice_fd (select_q dev) (read_q dev) ButtonProcess_new s.

(** A process starts with an empty trace. *)
Definition boot (clk : nat -> timeval) : Sys :=
  {| clock := clk; ticks := 0; trace := [] |}.

(** ** Scenarios of the specification, run on the model *)

Definition report (b0 b1 b2 b3 : byte) : read_ret :=
  {| nLen := 4; rd_errno := 0; rd_data := [b0; b1; b2; b3] |}.
Definition would_block : read_ret :=
  {| nLen := -1; rd_errno := EAGAIN; rd_data := [] |}.
Definition ready : select_ret := {| sel_ret := 1; sel_isset := true |}.
Definition timed_out : select_ret := {| sel_ret := 0; sel_isset := false |}.

(** A clock that advances [step] milliseconds per reading. *)
Definition clock_every (step : Z) (n : nat) : timeval :=
  let ms := 1700000000000 + step * Z.of_nat n in
  {| tv_sec := ms / 1000; tv_usec := (ms mod 1000) * 1000 |}.

Definition run (dev : Device) (clk : nat -> timeval) : outcome * list string :=
  let r := main dev (boot clk) in (fst r, stdout (snd r)).

(** A clock stopped at [tv]. *)
Definition clock_at (tv : timeval) : nat -> timeval := fun _ => tv.

Definition t_armed : timeval := {| tv_sec := 1700000000; tv_usec := 250000 |}.
Definition t_early : timeval := {| tv_sec := 1700000000; tv_usec := 549999 |}.
Definition t_late : timeval := {| tv_sec := 1700000000; tv_usec := 550000 |}.

Definition left_press : read_ret := report x09 x00 x00 x00.
Definition right_press : read_ret := report x0a x00 x00 x00.
Definition middle_press : read_ret := report x0c x00 x00 x00.
Definition wheel_down : read_ret := report x08 x00 x00 x01.
Definition wheel_up : read_ret := report x08 x00 x00 xff.
Definition left_drag : read_ret := report x09 x01 x00 x00.

(** A device that opens, accepts the mode switch, and then answers
    with the given [select] and [read] results. *)
Definition device (sq : list select_ret) (rq : list read_ret) : Device :=
  {| open_ret := 3; write_ret := 6; select_q := sq; read_q := rq |}.

(** ** Vocabulary of the statements *)

(** The classifier holds button [B], armed at [armed_at]. *)
Definition Pending (B : Z) (armed_at : timeval) : ButtonProcess :=
  {| m_btnPre := B; m_tv_cur := armed_at; m_bTimer := true |}.

(** The initial setting of the two classifier fields. *)
Definition Idle (this : ButtonProcess) : Prop :=
  m_btnPre this = BTN_NULL /\ m_bTimer this = false.

(** The classifier state after a decision taken while armed at [armed_at]. *)
Definition Reset (armed_at : timeval) : ButtonProcess :=
  {| m_btnPre := BTN_NULL; m_tv_cur := armed_at; m_bTimer := false |}.

(** A reading a real clock gives. *)
Definition realistic (tv : timeval) : Prop :=
  0 <= tv_sec tv < 2 ^ 40 /\ 0 <= tv_usec tv < 1000000.

(** The two invariants of the data model. *)
Definition consistent (this : ButtonProcess) : Prop :=
  (m_bTimer this = true -> m_btnPre this <> BTN_NULL) /\
  (m_btnPre this = BTN_NULL -> m_bTimer this = false).

(** The states the classifier is ever in: a button is held exactly when
    the deadline is armed. *)
Definition well_formed (this : ButtonProcess) : Prop :=
  (m_btnPre this = BTN_NULL /\ m_bTimer this = false) \/
  ((m_btnPre this = BTN_LEFT \/ m_btnPre this = BTN_RIGHT) /\
   m_bTimer this = true).

(** States reached from the constructor by calls of [Button] and [Timer]
    that return, whatever the system does in between. *)
Inductive reachable : ButtonProcess -> Prop :=
| reach_new : reachable ButtonProcess_new
| reach_Button type this s r this' s' :
    reachable this ->
    Button type this s = (Ok (r, this'), s') ->
    reachable this'
| reach_Timer this s this' s' :
    reachable this ->
    Timer this s = (Ok this', s') ->
    reachable this'.

(** [n] calls of [Timer] in a row. *)
Fixpoint Timer_times (n : nat) (this : ButtonProcess) : M ButtonProcess :=
  match n with
  | O => ret this
  | S n' => this' <- Timer this ;; Timer_times n' this'
  end.

(** The report makes [main] call [Button(B)]: no motion, no wheel, and
    the left button has priority over the right one. *)
Definition reports (data : imps2_data) (B : Z) : Prop :=
  z data = 0 /\ x data = 0 /\ y data = 0 /\
  ((B = BTN_LEFT /\ btn_left data = true) \/
   (B = BTN_RIGHT /\ btn_left data = false /\ btn_right data = true)).

(** [if (!btnProcess.Button(type)) { close(mice_fd); return 0; }] *)
Definition pass_to_classifier (mice_fd : Z) (type : Z)
    (btnProcess : ButtonProcess) : M ctl :=
  r <- Button type btnProcess ;;
  if negb (fst r)
  then close mice_fd ;; ret (Return 0)
  else ret (Next (snd r)).

(** What the loop does with the classifier, in order: it handles a
    full-size report (lines 226-270) or closes an iteration with the
    [Timer] call (line 277). *)
Inductive activity : Type :=
| Report (data : imps2_data)
| Deadline.

Fixpoint main_activities (mice_fd : Z) (acts : list activity)
    (btnProcess : ButtonProcess) : M ctl :=
  match acts with
  | [] => ret (Next btnProcess)
  | Report data :: acts' =>
      c <- main_dispatch mice_fd data btnProcess ;;
      match c with
      | Next btnProcess' => main_activities mice_fd acts' btnProcess'
      | Return status => ret (Return status)
      end
  | Deadline :: acts' =>
      btnProcess' <- Timer btnProcess ;;
      main_activities mice_fd acts' btnProcess'
  end.

Definition wheel_line (data : imps2_data) : string :=
  if z data >? 0 then line "9" else line "0".

Definition wheel_lines (acts : list activity) : list string :=
  flat_map (fun a => match a with
                     | Report data => [wheel_line data]
                     | Deadline => []
                     end) acts.

(** A system or library call whose result makes [main] give up. *)
Definition fatal (e : event) : Prop :=
  match e with
  | EvOpen fd => fd = -1
  | EvWrite nRet => nRet < 0
  | EvSelect r => sel_ret r < 0
  | EvRead r => nLen r = 0 \/ (nLen r = -1 /\ rd_errno r <> EAGAIN)
  | _ => False
  end.

(** An event after which the process keeps running. *)
Definition calm (e : event) : Prop :=
  ~ fatal e /\ e <> EvPrintf (line "q").

(** An activity that is no button press: a wheel report or a deadline
    check. *)
Definition quiet (a : activity) : Prop :=
  match a with
  | Report data => z data <> 0
  | Deadline => True
  end.

(** A [read] that delivers a full-size wheel report. *)
Definition wheel_read (r : read_ret) : Prop :=
  nLen r = sizeof_data /\ z (overlay (rd_data r)) <> 0.

Definition wheel_read_line (r : read_ret) : string :=
  wheel_line (overlay (rd_data r)).

(** How the trace of a run relates to the way it ended: status 0 right
    after the quit line and the [close]; status 1 right after the first
    fatal result; no exit otherwise. *)
Definition verdict (mice_fd : Z) (o : outcome) (t : list event) : Prop :=
  match o with
  | Exit status =>
      (status = 0 /\
       exists t0, t = t0 ++ [EvPrintf (line "q"); EvClose mice_fd] /\
                  Forall calm t0)
      \/
      (status = 1 /\
       exists t0 e, t = t0 ++ [e] /\ Forall calm t0 /\ fatal e)
  | Aborted => False
  | Unfinished => Forall calm t
  end.

(** ** Vocabulary of the further properties *)

(** The time in whole milliseconds, without any reduction to [long]. *)
Definition tv_plain_ms (tv : timeval) : Z :=
  tv_sec tv * 1000 + Z.quot (tv_usec tv) 1000.

Definition tv_microseconds (tv : timeval) : Z :=
  tv_sec tv * 1000000 + tv_usec tv.

(** [n] presses of the same button in a row, as [main] hands them to
    [Button]: it goes on while [Button] returns [true]. *)
Fixpoint Button_times (n : nat) (type : Z) (this : ButtonProcess)
    : M ButtonProcess :=
  match n with
  | O => ret this
  | S n' =>
      r <- Button type this ;;
      if fst r then Button_times n' type (snd r) else ret (snd r)
  end.

(** The eight lines of the header comment of the source. *)
Definition symbols : list string :=
  [line "z"; line "x"; line "<"; line ">"; line "p"; line "9"; line "0";
   line "q"].

(** A call of the loop after which the loop goes on. *)
Definition steady (e : event) : Prop :=
  match e with
  | EvSelect r => 0 <= sel_ret r
  | EvRead r => nLen r <> 0 /\ (nLen r = -1 -> rd_errno r = EAGAIN)
  | EvGettimeofday _ => True
  | EvPrintf l =>
      In l [line "z"; line "x"; line "<"; line ">"; line "p"; line "9";
            line "0"]
  | _ => False
  end.

(** The last calls of the loop, by the way it ended. *)
Inductive ending (mice_fd : Z) : outcome -> list event -> Prop :=
| end_unfinished : ending mice_fd Unfinished []
| end_select r :
    sel_ret r < 0 -> ending mice_fd (Exit 1) [EvSelect r]
| end_read r :
    nLen r = 0 \/ (nLen r = -1 /\ rd_errno r <> EAGAIN) ->
    ending mice_fd (Exit 1) [EvRead r]
| end_quit :
    ending mice_fd (Exit 0) [EvPrintf (line "q"); EvClose mice_fd].

(** The whole trace of a run of [main]. *)
Inductive main_trace (dev : Device) : outcome -> list event -> Prop :=
| trace_open_failed :
    open_ret dev = -1 ->
    main_trace dev (Exit 1) [EvOpen (open_ret dev)]
| trace_write_failed :
    open_ret dev <> -1 -> write_ret dev < 0 ->
    main_trace dev (Exit 1) [EvOpen (open_ret dev); EvWrite (write_ret dev)]
| trace_loop o evs tail :
    open_ret dev <> -1 -> 0 <= write_ret dev ->
    Forall steady evs -> ending (open_ret dev) o tail ->
    main_trace dev o
      (EvOpen (open_ret dev) :: EvWrite (write_ret dev) :: evs ++ tail).

(** A [select] that timed out: nothing to read. *)
Definition idle_select (sel : select_ret) : Prop :=
  0 <= sel_ret sel /\ sel_isset sel = false.

(** A [read] that delivered some bytes, but not a whole report. *)
Definition short_read (r : read_ret) : Prop :=
  nLen r <> 0 /\ nLen r <> -1 /\ nLen r <> sizeof_data.

Definition byte_value (b : byte) : Z := Z.of_N (Byte.to_N b).

(** A clock that gives the readings of a list, then stays at [last]. *)
Definition clock_list (l : list timeval) (last : timeval) : nat -> timeval :=
  fun n => nth n l last.

(** Two readings far beyond what a [long] holds in milliseconds, 300 ms
    apart. *)
Definition t_huge : timeval := {| tv_sec := 2 ^ 62; tv_usec := 0 |}.
Definition t_huge_late : timeval := {| tv_sec := 2 ^ 62; tv_usec := 300000 |}.

(** The one-byte acknowledge of the mode switch. *)
Definition ack : read_ret := {| nLen := 1; rd_errno := 0; rd_data := [xfa] |}.

Arguments tv_interval_ms : simpl never.

(** * Properties *)

(** ** Standard output and the trace *)

Lemma stdout_of_app (t u : list event) :
  stdout_of (t ++ u) = stdout_of t ++ stdout_of u.
Proof. unfold stdout_of. apply flat_map_app. Qed.

Lemma stdout_log_printf (l : string) (s : Sys) :
  stdout (log (EvPrintf l) s) = stdout s ++ [l].
Proof. unfold stdout, log; simpl. now rewrite stdout_of_app. Qed.

Lemma stdout_log_silent (e : event) (s : Sys) :
  printed e = [] -> stdout (log e s) = stdout s.
Proof.
  intros He. unfold stdout, log; simpl.
  rewrite stdout_of_app. simpl. rewrite He. simpl. now rewrite !app_nil_r.
Qed.

Lemma stdout_gettimeofday (s : Sys) :
  stdout (snd (gettimeofday s)) = stdout s.
Proof.
  unfold stdout, gettimeofday; simpl.
  rewrite stdout_of_app. simpl. now rewrite app_nil_r.
Qed.

Lemma clock_gettimeofday (s : Sys) :
  clock (snd (gettimeofday s)) = clock s.
Proof. reflexivity. Qed.

(** ** The millisecond difference *)

Lemma wrap_long_small (v : Z) :
  - 2 ^ 63 <= v < 2 ^ 63 -> wrap_long v = v.
Proof.
  intros Hv. unfold wrap_long.
  rewrite Z.mod_small by lia. lia.
Qed.

(** For the readings a real clock gives, the interval is the difference
    of the two times, each cut down to whole milliseconds. *)
Lemma tv_interval_ms_exact (tv cur : timeval) :
  0 <= tv_sec tv < 2 ^ 40 -> 0 <= tv_usec tv < 1000000 ->
  0 <= tv_sec cur < 2 ^ 40 -> 0 <= tv_usec cur < 1000000 ->
  tv_interval_ms tv cur =
    (tv_sec tv * 1000 + tv_usec tv / 1000)
    - (tv_sec cur * 1000 + tv_usec cur / 1000).
Proof.
  intros Hs Hu Hs' Hu'.
  assert (Hq : forall u, 0 <= u < 1000000 ->
                         Z.quot u 1000 = u / 1000 /\ 0 <= u / 1000 < 1000).
  { intros u H. rewrite Z.quot_div_nonneg by lia. split; [reflexivity|].
    split; [apply Z.div_pos; lia | apply Z.div_lt_upper_bound; lia]. }
  destruct (Hq _ Hu) as [Eu Bu]. destruct (Hq _ Hu') as [Eu' Bu'].
  assert (H40 : 2 ^ 40 = 1099511627776) by reflexivity.
  assert (H63 : 2 ^ 63 = 9223372036854775808) by reflexivity.
  unfold tv_interval_ms, tv_ms. rewrite Eu, Eu'.
  rewrite (wrap_long_small (tv_sec tv * 1000)) by lia.
  rewrite (wrap_long_small (tv_sec cur * 1000)) by lia.
  rewrite (wrap_long_small (tv_sec tv * 1000 + _)) by lia.
  rewrite (wrap_long_small (tv_sec cur * 1000 + _)) by lia.
  apply wrap_long_small. lia.
Qed.

(** ** The classifier *)

Ltac run_proc :=
  unfold pass_to_classifier, Button, Timer, EnableTimer, DisableTimer,
    IsTimerEnable, bind, ret, assert, printf, close, Pending, Reset,
    set_btnPre, set_tv_cur, set_bTimer;
  cbn [m_btnPre m_tv_cur m_bTimer fst snd negb orb andb].

Lemma BTN_cases (B : Z) :
  B = BTN_LEFT \/ B = BTN_RIGHT ->
  (B =? BTN_LEFT) || (B =? BTN_RIGHT) = true /\ (B =? BTN_NULL) = false.
Proof. intros [-> | ->]; split; reflexivity. Qed.

(** [Button] on a consistent state keeps it consistent and never trips its
    assertion when called with one of the two buttons. *)
Lemma Button_well_formed (type : Z) (this : ButtonProcess) (s : Sys) :
  type = BTN_LEFT \/ type = BTN_RIGHT ->
  well_formed this ->
  exists r this' s',
    Button type this s = (Ok (r, this'), s') /\ well_formed this'.
Proof.
  intros Ht Hw. destruct (BTN_cases _ Ht) as [Ha _].
  destruct this as [pre cur tm].
  destruct Hw as [[Hp Hb] | [Hp Hb]]; cbn in Hp, Hb; subst tm.
  - subst pre. run_proc. rewrite Ha. cbn.
    do 3 eexists. split; [reflexivity|].
    right. cbn. split; [exact Ht | reflexivity].
  - run_proc. rewrite Ha.
    destruct Hp as [-> | ->], Ht as [-> | ->]; cbn;
      (do 3 eexists; split; [reflexivity | left; split; reflexivity]).
Qed.

(** Whatever [Button] is called with, a call that returns leaves a
    well-formed state. *)
Lemma Button_preserves (type : Z) (this : ButtonProcess) (s : Sys) r this' s' :
  well_formed this ->
  Button type this s = (Ok (r, this'), s') ->
  well_formed this'.
Proof.
  intros Hw HB.
  assert (Ht : type = BTN_LEFT \/ type = BTN_RIGHT).
  { revert HB. run_proc.
    destruct (type =? BTN_LEFT) eqn:E1; [left; now apply Z.eqb_eq|].
    destruct (type =? BTN_RIGHT) eqn:E2; [right; now apply Z.eqb_eq|].
    cbn. discriminate. }
  destruct (Button_well_formed type this s Ht Hw) as (r0 & t0 & s0 & E & W).
  rewrite E in HB. now inversion HB; subst.
Qed.

Lemma Timer_preserves (this : ButtonProcess) (s : Sys) :
  well_formed this ->
  exists this' s', Timer this s = (Ok this', s') /\ well_formed this'.
Proof.
  intros Hw. destruct this as [pre cur tm].
  destruct Hw as [[Hp Hb] | [Hp Hb]]; cbn in Hp, Hb; subst tm.
  - run_proc. do 2 eexists. split; [reflexivity|]. left. now split.
  - run_proc. unfold gettimeofday at 1.
    destruct (300 <=? tv_interval_ms (clock s (ticks s)) cur).
    + destruct Hp as [-> | ->]; cbn;
        (do 2 eexists; split; [reflexivity | left; split; reflexivity]).
    + do 2 eexists. split; [reflexivity|]. right. now split.
Qed.

Lemma reachable_well_formed (this : ButtonProcess) :
  reachable this -> well_formed this.
Proof.
  induction 1 as [| type this s r this' s' _ IH HB | this s this' s' _ IH HT].
  - left. split; reflexivity.
  - eapply Button_preserves; eassumption.
  - destruct (Timer_preserves this s IH) as (t0 & s0 & E & W).
    rewrite E in HT. now inversion HT; subst.
Qed.

Lemma well_formed_consistent (this : ButtonProcess) :
  well_formed this -> consistent this.
Proof.
  intros [[Hp Hb] | [Hp Hb]]; split; intros H; try congruence;
    destruct Hp as [Hp | Hp]; rewrite Hp in *; discriminate.
Qed.

(** [Timer] on a pending button, on either side of the deadline. *)
Lemma Timer_pending_late (B : Z) (armed_at : timeval) (s : Sys) :
  B = BTN_LEFT \/ B = BTN_RIGHT ->
  300 <= tv_interval_ms (clock s (ticks s)) armed_at ->
  Timer (Pending B armed_at) s
    = (Ok (Reset armed_at),
       log (EvPrintf (if B =? BTN_LEFT then line "<" else line ">"))
           (snd (gettimeofday s))).
Proof.
  intros HB Hi. run_proc. unfold gettimeofday at 1.
  apply Z.leb_le in Hi. rewrite Hi.
  destruct HB as [-> | ->]; reflexivity.
Qed.

Lemma Timer_pending_early (B : Z) (armed_at : timeval) (s : Sys) :
  tv_interval_ms (clock s (ticks s)) armed_at < 300 ->
  Timer (Pending B armed_at) s
    = (Ok (Pending B armed_at), snd (gettimeofday s)).
Proof.
  intros Hi. run_proc. unfold gettimeofday at 1.
  apply Z.leb_gt in Hi. now rewrite Hi.
Qed.

Lemma Button_double (B : Z) (armed_at : timeval) (s : Sys) :
  B = BTN_LEFT \/ B = BTN_RIGHT ->
  Button B (Pending B armed_at) s
    = (Ok (true, Reset armed_at),
       log (EvPrintf (if B =? BTN_LEFT then line "z" else line "x")) s).
Proof. intros [-> | ->]; reflexivity. Qed.

Lemma Button_idle (B : Z) (this : ButtonProcess) (s : Sys) :
  B = BTN_LEFT \/ B = BTN_RIGHT ->
  Idle this ->
  Button B this s
    = (Ok (true, Pending B (clock s (ticks s))), snd (gettimeofday s)).
Proof.
  intros HB [Hp Hb]. destruct this as [pre cur tm]. cbn in Hp, Hb. subst.
  destruct HB as [-> | ->]; reflexivity.
Qed.

(** C1. In state Pending(B), armed at [armed_at], a [Timer] call that reads
    the time [now] with [tv_interval_ms now armed_at >= 300] prints exactly
    one single-click line ("<" for the left button, ">" for the right one)
    and resets the classifier; with an interval under 300 it leaves the
    classifier as it was and prints nothing.  The interval is the
    difference of the two times in whole milliseconds. *)
Theorem Timer_pending_deadline (B : Z) (armed_at : timeval) (s : Sys) :
  B = BTN_LEFT \/ B = BTN_RIGHT ->
  let now := clock s (ticks s) in
  let click := if B =? BTN_LEFT then line "<" else line ">" in
  (300 <= tv_interval_ms now armed_at ->
     Timer (Pending B armed_at) s
       = (Ok (Reset armed_at), log (EvPrintf click) (snd (gettimeofday s)))
     /\ stdout (snd (Timer (Pending B armed_at) s)) = stdout s ++ [click]
     /\ Idle (Reset armed_at))
  /\
  (tv_interval_ms now armed_at < 300 ->
     Timer (Pending B armed_at) s
       = (Ok (Pending B armed_at), snd (gettimeofday s))
     /\ stdout (snd (Timer (Pending B armed_at) s)) = stdout s)
  /\
  (realistic now -> realistic armed_at ->
     tv_interval_ms now armed_at
       = (tv_sec now * 1000 + tv_usec now / 1000)
         - (tv_sec armed_at * 1000 + tv_usec armed_at / 1000)).
Proof.
  intros HB now click. split; [|split]; [intros Hi | intros Hi |];
    [| | intros [? ?] [? ?]; now apply tv_interval_ms_exact].
  - pose proof (Timer_pending_late B armed_at s HB Hi) as E.
    fold click in E.
    split; [exact E|]. split; [|split; reflexivity].
    rewrite E. cbn [snd]. rewrite stdout_log_printf.
    now rewrite stdout_gettimeofday.
  - pose proof (Timer_pending_early B armed_at s Hi) as E.
    split; [exact E|].
    rewrite E. cbn [snd]. apply stdout_gettimeofday.
Qed.

(** C2. In state Pending(B), [Button(B)] with the same button prints
    exactly one double-click line ("z" for the left button, "x" for the
    right one), nothing else, and resets the classifier. *)
Theorem Button_same_pending_double_click (B : Z) (armed_at : timeval) (s : Sys) :
  B = BTN_LEFT \/ B = BTN_RIGHT ->
  let dbl := if B =? BTN_LEFT then line "z" else line "x" in
  Button B (Pending B armed_at) s
    = (Ok (true, Reset armed_at), log (EvPrintf dbl) s)
  /\ stdout (snd (Button B (Pending B armed_at) s)) = stdout s ++ [dbl]
  /\ Idle (Reset armed_at).
Proof.
  intros HB dbl.
  pose proof (Button_double B armed_at s HB) as E. fold dbl in E.
  split; [exact E|]. split; [|split; reflexivity].
  rewrite E. cbn [snd]. apply stdout_log_printf.
Qed.

(** The quit branch of [Button]. *)
Lemma Button_quit (B1 B2 : Z) (armed_at : timeval) (s : Sys) :
  B1 = BTN_LEFT \/ B1 = BTN_RIGHT ->
  B2 = BTN_LEFT \/ B2 = BTN_RIGHT ->
  B2 <> B1 ->
  Button B2 (Pending B1 armed_at) s
    = (Ok (false, Reset armed_at), log (EvPrintf (line "q")) s).
Proof.
  intros [-> | ->] [-> | ->] Hne; try reflexivity; now elim Hne.
Qed.

(** C5. Every state reached from the constructor by [Button] and [Timer]
    calls satisfies both invariants (armed deadline implies a pending
    button; no pending button implies no armed deadline), and every call
    that takes a decision, that is prints a double click, a quit or a
    single click, leaves [m_btnPre = BTN_NULL] and [m_bTimer = false]. *)
Theorem classifier_invariant (this : ButtonProcess) :
  reachable this ->
  ((m_bTimer this = true -> m_btnPre this <> BTN_NULL) /\
   (m_btnPre this = BTN_NULL -> m_bTimer this = false))
  /\
  (forall type s r this' s',
     Button type this s = (Ok (r, this'), s') ->
     (stdout s' = stdout s /\ r = true) \/
     (exists l, (l = line "z" \/ l = line "x" \/ l = line "q") /\
                stdout s' = stdout s ++ [l] /\
                m_btnPre this' = BTN_NULL /\ m_bTimer this' = false))
  /\
  (forall s this' s',
     Timer this s = (Ok this', s') ->
     (stdout s' = stdout s /\ this' = this) \/
     (exists l, (l = line "<" \/ l = line ">") /\
                stdout s' = stdout s ++ [l] /\
                m_btnPre this' = BTN_NULL /\ m_bTimer this' = false)).
Proof.
  intros Hr. pose proof (reachable_well_formed this Hr) as Hw.
  split; [exact (well_formed_consistent this Hw)|]. split.
  - intros type s r this' s'. destruct this as [pre cur tm].
    run_proc.
    destruct ((type =? BTN_LEFT) || (type =? BTN_RIGHT)); [|discriminate].
    destruct (pre =? BTN_NULL).
    + unfold gettimeofday. intros E; inversion E; subst. left.
      split; [|reflexivity].
      unfold stdout; cbn. rewrite stdout_of_app. cbn. apply app_nil_r.
    + destruct (pre =? type); cbn.
      * destruct (pre =? BTN_LEFT); intros E; inversion E; subst; right;
          eexists; (split; [|split; [apply stdout_log_printf | split; reflexivity]]);
          auto.
      * intros E; inversion E; subst. right.
        eexists; (split; [|split; [apply stdout_log_printf | split; reflexivity]]);
          auto.
  - intros s this' s'. destruct this as [pre cur tm].
    run_proc. destruct tm.
    + unfold gettimeofday at 1.
      destruct (300 <=? tv_interval_ms (clock s (ticks s)) cur).
      * destruct (negb (pre =? BTN_NULL)); [|discriminate].
        destruct (pre =? BTN_LEFT); intros E; inversion E; subst; right;
          eexists; (split; [|split; [|split; reflexivity]]);
          try (cbn [snd]; rewrite stdout_log_printf;
               change (stdout _) with (stdout (snd (gettimeofday s))) at 1;
               rewrite stdout_gettimeofday; reflexivity);
          auto.
      * intros E; inversion E; subst. left. split; [|reflexivity].
        apply (stdout_gettimeofday s).
    + intros E; inversion E; subst. left. split; reflexivity.
Qed.

Lemma Timer_disarmed (this : ButtonProcess) (s : Sys) :
  m_bTimer this = false -> Timer this s = (Ok this, s).
Proof. intros H. unfold Timer, IsTimerEnable. now rewrite H. Qed.

Lemma Timer_times_disarmed (n : nat) (this : ButtonProcess) (s : Sys) :
  m_bTimer this = false -> Timer_times n this s = (Ok this, s).
Proof.
  intros H. induction n as [|n IH]; [reflexivity|].
  cbn [Timer_times]. unfold bind. now rewrite (Timer_disarmed this s H).
Qed.

(** C9. [Timer] on an idle classifier does nothing: any number of calls
    in a row returns the same classifier and the same system state (no
    output, no call made), and on no reachable state does the assertion
    of [Timer] fail. *)
Theorem Timer_idle_noop (this : ButtonProcess) (n : nat) (s : Sys) :
  (Idle this -> Timer_times n this s = (Ok this, s))
  /\ (reachable this -> m_btnPre this = BTN_NULL ->
      Timer_times n this s = (Ok this, s))
  /\ (reachable this -> fst (Timer this s) <> AssertFail).
Proof.
  split; [|split].
  - intros [_ Hb]. now apply Timer_times_disarmed.
  - intros Hr Hp. apply Timer_times_disarmed.
    now apply (well_formed_consistent this (reachable_well_formed this Hr)).
  - intros Hr.
    destruct (Timer_preserves this s (reachable_well_formed this Hr))
      as (t' & s' & E & _).
    rewrite E. discriminate.
Qed.

(** ** The event loop *)

Lemma main_drain_full_size (mice_fd : Z) (r : read_ret) (rq : list read_ret)
    (btnProcess : ButtonProcess) (s : Sys) :
  nLen r = sizeof_data ->
  main_drain mice_fd (r :: rq) btnProcess s =
    match main_dispatch mice_fd (overlay (rd_data r)) btnProcess
            (log (EvRead r) s) with
    | (Ok (Next btnProcess'), s') => main_drain mice_fd rq btnProcess' s'
    | (Ok (Return status), s') => (Stop (Exit status), s')
    | (AssertFail, s') => (Stop Aborted, s')
    end.
Proof. intros H. cbn [main_drain]. rewrite H. reflexivity. Qed.

Lemma main_drain_would_block (mice_fd : Z) (r : read_ret) (rq : list read_ret)
    (btnProcess : ButtonProcess) (s : Sys) :
  nLen r = -1 -> rd_errno r = EAGAIN ->
  main_drain mice_fd (r :: rq) btnProcess s
    = (Break rq btnProcess, log (EvRead r) s).
Proof. intros H E. cbn [main_drain]. rewrite H, E. reflexivity. Qed.

Lemma main_loop_ready (mice_fd : Z) (sel : select_ret) (sq : list select_ret)
    (rq : list read_ret) (btnProcess : ButtonProcess) (s : Sys) :
  0 <= sel_ret sel -> sel_isset sel = true ->
  main_loop mice_fd (sel :: sq) rq btnProcess s =
    match main_drain mice_fd rq btnProcess (log (EvSelect sel) s) with
    | (Stop o, s') => (o, s')
    | (Break rq' btnProcess', s') =>
        match Timer btnProcess' s' with
        | (Ok btnProcess'', s'') => main_loop mice_fd sq rq' btnProcess'' s''
        | (AssertFail, s'') => (Aborted, s'')
        end
    end.
Proof.
  intros H E. cbn [main_loop]. apply Z.ltb_ge in H. rewrite H, E. reflexivity.
Qed.

Lemma main_dispatch_button (mice_fd : Z) (data : imps2_data) (B : Z)
    (btnProcess : ButtonProcess) (s : Sys) :
  reports data B ->
  main_dispatch mice_fd data btnProcess s
    = pass_to_classifier mice_fd B btnProcess s.
Proof.
  intros (Hz & Hx & Hy & [[-> Hl] | [-> [Hl Hr]]]);
    unfold main_dispatch; rewrite Hz, Hx, Hy; cbn [Z.eqb andb].
  - now rewrite Hl.
  - now rewrite Hl, Hr.
Qed.

Lemma main_dispatch_wheel (mice_fd : Z) (data : imps2_data)
    (btnProcess : ButtonProcess) (s : Sys) :
  z data <> 0 ->
  main_dispatch mice_fd data btnProcess s
    = (Ok (Next btnProcess), log (EvPrintf (wheel_line data)) s).
Proof.
  intros Hz. apply Z.eqb_neq in Hz.
  unfold main_dispatch, wheel_line. rewrite Hz. cbn [andb negb].
  destruct (z data >? 0); reflexivity.
Qed.

Lemma main_dispatch_motion (mice_fd : Z) (data : imps2_data)
    (btnProcess : ButtonProcess) (s : Sys) :
  z data = 0 -> x data <> 0 \/ y data <> 0 ->
  main_dispatch mice_fd data btnProcess s = (Ok (Next btnProcess), s).
Proof.
  intros Hz Hxy. unfold main_dispatch. rewrite Hz. cbn [Z.eqb andb negb].
  destruct Hxy as [H | H]; apply Z.eqb_neq in H; rewrite H;
    [|rewrite andb_false_r]; reflexivity.
Qed.

(** C3. In state Pending(B1), [Button(B2)] with the other button prints
    "q" at once (no clock reading, no other line) and resets the
    classifier; [main], handling a report that presses B2, then closes
    the device and returns 0. *)
Theorem Button_other_pending_quit (B1 B2 : Z) (armed_at : timeval) (s : Sys) :
  B1 = BTN_LEFT \/ B1 = BTN_RIGHT ->
  B2 = BTN_LEFT \/ B2 = BTN_RIGHT ->
  B2 <> B1 ->
  Button B2 (Pending B1 armed_at) s
    = (Ok (false, Reset armed_at), log (EvPrintf (line "q")) s)
  /\ stdout (snd (Button B2 (Pending B1 armed_at) s)) = stdout s ++ [line "q"]
  /\ Idle (Reset armed_at)
  /\ (forall mice_fd r rq,
        nLen r = sizeof_data -> reports (overlay (rd_data r)) B2 ->
        main_drain mice_fd (r :: rq) (Pending B1 armed_at) s
          = (Stop (Exit 0),
             log (EvClose mice_fd)
               (log (EvPrintf (line "q")) (log (EvRead r) s))))
  /\ (forall mice_fd sel sq r rq,
        0 <= sel_ret sel -> sel_isset sel = true ->
        nLen r = sizeof_data -> reports (overlay (rd_data r)) B2 ->
        main_loop mice_fd (sel :: sq) (r :: rq) (Pending B1 armed_at) s
          = (Exit 0,
             log (EvClose mice_fd)
               (log (EvPrintf (line "q"))
                  (log (EvRead r) (log (EvSelect sel) s))))).
Proof.
  intros H1 H2 Hne.
  assert (D : forall mice_fd r rq s0,
             nLen r = sizeof_data -> reports (overlay (rd_data r)) B2 ->
             main_drain mice_fd (r :: rq) (Pending B1 armed_at) s0
             = (Stop (Exit 0),
                log (EvClose mice_fd)
                  (log (EvPrintf (line "q")) (log (EvRead r) s0)))).
  { intros mice_fd r rq s0 Hn Hrep.
    rewrite main_drain_full_size by exact Hn.
    rewrite (main_dispatch_button _ _ B2) by exact Hrep.
    unfold pass_to_classifier, bind at 1.
    rewrite (Button_quit B1 B2) by assumption. reflexivity. }
  split; [now apply Button_quit|].
  split; [rewrite (Button_quit B1 B2) by assumption; apply stdout_log_printf|].
  split; [split; reflexivity|].
  split.
  - intros mice_fd r rq. apply D.
  - intros mice_fd sel sq r rq Hs Hi Hn Hrep.
    rewrite main_loop_ready by assumption.
    now rewrite D.
Qed.

(** C4, amended. For a full-size report with no wheel delta and no
    motion ([z], [x] and [y] all zero): if left is set, [main] passes
    BTN_LEFT to [Button]; otherwise if right is set, BTN_RIGHT; otherwise
    if middle is set, it prints "p" and leaves the classifier alone. *)
Theorem main_dispatch_priority (mice_fd : Z) (data : imps2_data)
    (btnProcess : ButtonProcess) (s : Sys) :
  z data = 0 -> x data = 0 -> y data = 0 ->
  (btn_left data = true ->
     main_dispatch mice_fd data btnProcess s
       = pass_to_classifier mice_fd BTN_LEFT btnProcess s)
  /\ (btn_left data = false -> btn_right data = true ->
     main_dispatch mice_fd data btnProcess s
       = pass_to_classifier mice_fd BTN_RIGHT btnProcess s)
  /\ (btn_left data = false -> btn_right data = false ->
      btn_middle data = true ->
     main_dispatch mice_fd data btnProcess s
       = (Ok (Next btnProcess), log (EvPrintf (line "p")) s)).
Proof.
  intros Hz Hx Hy. split; [|split].
  - intros Hl. apply main_dispatch_button. unfold reports. tauto.
  - intros Hl Hr. apply main_dispatch_button. unfold reports. tauto.
  - intros Hl Hr Hm. unfold main_dispatch.
    rewrite Hz, Hx, Hy, Hl, Hr, Hm. reflexivity.
Qed.

(** C4 as stated fails: a report with [z = 0] and the left bit set, but
    with a motion delta, is not passed to the classifier at all. *)
Lemma main_dispatch_left_with_motion :
  let data := overlay [x09; x01; x00; x00] in
  let s := boot (fun _ => {| tv_sec := 0; tv_usec := 0 |}) in
  z data = 0 /\ btn_left data = true /\
  main_dispatch 3 data ButtonProcess_new s = (Ok (Next ButtonProcess_new), s) /\
  main_dispatch 3 data ButtonProcess_new s
    <> pass_to_classifier 3 BTN_LEFT ButtonProcess_new s.
Proof.
  cbv zeta. split; [reflexivity|]. split; [reflexivity|].
  split; [reflexivity|].
  intros H. vm_compute in H. discriminate H.
Qed.

(** C6. A full-size report with no button set and a wheel delta prints
    exactly one line, "9" when [z > 0] and "0" when [z < 0]; the drain
    loop then goes on to the next [read]. *)
Theorem main_dispatch_wheel_output (mice_fd : Z) (data : imps2_data)
    (btnProcess : ButtonProcess) (s : Sys) :
  btn_left data = false -> btn_right data = false ->
  btn_middle data = false ->
  z data <> 0 ->
  (0 < z data ->
     main_dispatch mice_fd data btnProcess s
       = (Ok (Next btnProcess), log (EvPrintf (line "9")) s)
     /\ stdout (snd (main_dispatch mice_fd data btnProcess s))
        = stdout s ++ [line "9"])
  /\ (z data < 0 ->
     main_dispatch mice_fd data btnProcess s
       = (Ok (Next btnProcess), log (EvPrintf (line "0")) s)
     /\ stdout (snd (main_dispatch mice_fd data btnProcess s))
        = stdout s ++ [line "0"])
  /\ (forall r rq,
        nLen r = sizeof_data -> overlay (rd_data r) = data ->
        main_drain mice_fd (r :: rq) btnProcess s
          = main_drain mice_fd rq btnProcess
              (log (EvPrintf (wheel_line data)) (log (EvRead r) s))).
Proof.
  intros _ _ _ Hz. split; [|split].
  - intros Hpos. rewrite main_dispatch_wheel by exact Hz.
    unfold wheel_line. apply Z.gtb_lt in Hpos. rewrite Hpos.
    split; [reflexivity | apply stdout_log_printf].
  - intros Hneg. rewrite main_dispatch_wheel by exact Hz.
    unfold wheel_line.
    assert (E : (z data >? 0) = false).
    { rewrite Z.gtb_ltb. apply Z.ltb_ge. lia. }
    rewrite E. split; [reflexivity | apply stdout_log_printf].
  - intros r rq Hn Hd. rewrite main_drain_full_size by exact Hn.
    rewrite Hd, main_dispatch_wheel by exact Hz. reflexivity.
Qed.

(** C10. A full-size report with [z = 0] and a motion delta ([x] or [y]
    not zero) prints nothing and leaves the classifier and the system
    untouched, whatever its button bits; the drain loop goes on to the
    next [read]. *)
Theorem main_dispatch_motion_ignored (mice_fd : Z) (data : imps2_data)
    (btnProcess : ButtonProcess) (s : Sys) :
  z data = 0 -> x data <> 0 \/ y data <> 0 ->
  main_dispatch mice_fd data btnProcess s = (Ok (Next btnProcess), s)
  /\ (forall r rq,
        nLen r = sizeof_data -> overlay (rd_data r) = data ->
        main_drain mice_fd (r :: rq) btnProcess s
          = main_drain mice_fd rq btnProcess (log (EvRead r) s)
        /\ stdout (log (EvRead r) s) = stdout s).
Proof.
  intros Hz Hxy. split; [now apply main_dispatch_motion|].
  intros r rq Hn Hd. split; [|now apply stdout_log_silent].
  rewrite main_drain_full_size by exact Hn.
  rewrite Hd, main_dispatch_motion by assumption. reflexivity.
Qed.

(** ** Wheel reports and the pending button *)

Lemma main_drain_wheels (mice_fd : Z) (wheels rq : list read_ret)
    (btnProcess : ButtonProcess) :
  Forall wheel_read wheels ->
  forall s, exists s',
    main_drain mice_fd (wheels ++ rq) btnProcess s
      = main_drain mice_fd rq btnProcess s'
    /\ stdout s' = stdout s ++ map wheel_read_line wheels
    /\ clock s' = clock s /\ ticks s' = ticks s.
Proof.
  induction 1 as [|r wheels [Hn Hz] _ IH]; intros s.
  - exists s. cbn. now rewrite app_nil_r.
  - cbn [app]. rewrite main_drain_full_size by exact Hn.
    rewrite main_dispatch_wheel by exact Hz.
    destruct (IH (log (EvPrintf (wheel_line (overlay (rd_data r))))
                    (log (EvRead r) s))) as (s' & E & Ho & Hc & Ht).
    exists s'. split; [exact E|]. split; [|split; assumption].
    rewrite Ho, stdout_log_printf, stdout_log_silent by reflexivity.
    cbn [map]. now rewrite <- app_assoc.
Qed.

Lemma main_activities_pending (mice_fd : Z) (B : Z) (armed_at : timeval)
    (mids rest : list activity) :
  Forall quiet mids ->
  forall s,
    (forall n, (ticks s <= n)%nat ->
               tv_interval_ms (clock s n) armed_at < 300) ->
    exists s',
      main_activities mice_fd (mids ++ rest) (Pending B armed_at) s
        = main_activities mice_fd rest (Pending B armed_at) s'
      /\ stdout s' = stdout s ++ wheel_lines mids.
Proof.
  induction 1 as [|a mids Ha _ IH]; intros s Hw.
  - exists s. cbn. now rewrite app_nil_r.
  - destruct a as [data|]; cbn [app main_activities]; unfold bind at 1.
    + cbn in Ha. rewrite main_dispatch_wheel by exact Ha.
      destruct (IH (log (EvPrintf (wheel_line data)) s) Hw) as (s' & E & Ho).
      exists s'. split; [exact E|].
      rewrite Ho, stdout_log_printf. cbn. now rewrite <- app_assoc.
    + rewrite Timer_pending_early by (apply Hw; lia).
      destruct (IH (snd (gettimeofday s))) as (s' & E & Ho).
      { intros n Hn. cbn in Hn. apply Hw. lia. }
      exists s'. split; [exact E|].
      now rewrite Ho, stdout_gettimeofday.
Qed.

(** C7. A wheel report never changes the classifier; so when wheel
    reports (and deadline checks inside the 300 ms window) come between two
    presses of the same button, the second press still prints the double
    click of that button, after the wheel lines and with no single click.
    This is stated for the sequence of activities of the loop, for one
    drain, and for a whole iteration of the loop on wheel reports while a
    button is pending. *)
Theorem wheel_keeps_pending (mice_fd : Z) (B : Z) (this : ButtonProcess)
    (s : Sys) :
  B = BTN_LEFT \/ B = BTN_RIGHT ->
  Idle this ->
  let dbl := if B =? BTN_LEFT then line "z" else line "x" in
  (forall data btnProcess s0,
     z data <> 0 ->
     exists s1,
       main_dispatch mice_fd data btnProcess s0 = (Ok (Next btnProcess), s1))
  /\
  (forall p1 p2 mids,
     reports p1 B -> reports p2 B -> Forall quiet mids ->
     (forall n, (ticks s < n)%nat ->
                tv_interval_ms (clock s n) (clock s (ticks s)) < 300) ->
     exists this' s',
       main_activities mice_fd (Report p1 :: mids ++ [Report p2]) this s
         = (Ok (Next this'), s')
       /\ Idle this'
       /\ stdout s' = stdout s ++ wheel_lines mids ++ [dbl])
  /\
  (forall r1 r2 wheels rq,
     nLen r1 = sizeof_data -> reports (overlay (rd_data r1)) B ->
     nLen r2 = sizeof_data -> reports (overlay (rd_data r2)) B ->
     Forall wheel_read wheels ->
     exists this' s',
       main_drain mice_fd (r1 :: wheels ++ r2 :: rq) this s
         = main_drain mice_fd rq this' s'
       /\ Idle this'
       /\ stdout s' = stdout s ++ map wheel_read_line wheels ++ [dbl])
  /\
  (forall armed_at sel sq wheels b rq s0,
     0 <= sel_ret sel -> sel_isset sel = true ->
     Forall wheel_read wheels ->
     nLen b = -1 -> rd_errno b = EAGAIN ->
     tv_interval_ms (clock s0 (ticks s0)) armed_at < 300 ->
     exists s1,
       main_loop mice_fd (sel :: sq) (wheels ++ b :: rq)
         (Pending B armed_at) s0
         = main_loop mice_fd sq rq (Pending B armed_at) s1
       /\ stdout s1 = stdout s0 ++ map wheel_read_line wheels).
Proof.
  intros HB Hidle dbl. split; [|split; [|split]].
  - intros data bp s0 Hz. eexists. now apply main_dispatch_wheel.
  - intros p1 p2 mids Hp1 Hp2 Hq Hw.
    cbn [main_activities]. unfold bind at 1.
    rewrite (main_dispatch_button _ _ B) by exact Hp1.
    unfold pass_to_classifier, bind at 1.
    rewrite Button_idle by assumption. cbn [fst snd negb]. unfold ret at 1.
    destruct (main_activities_pending mice_fd B (clock s (ticks s)) mids
                [Report p2] Hq (snd (gettimeofday s))) as (s' & E & Ho).
    { intros n Hn. cbn in Hn. apply Hw. lia. }
    rewrite E. cbn [main_activities]. unfold bind at 1.
    rewrite (main_dispatch_button _ _ B) by exact Hp2.
    unfold pass_to_classifier, bind at 1.
    rewrite Button_double by exact HB. cbn [fst snd negb]. unfold ret.
    do 2 eexists. split; [reflexivity|]. split; [split; reflexivity|].
    rewrite stdout_log_printf, Ho, stdout_gettimeofday.
    now rewrite <- app_assoc.
  - intros r1 r2 wheels rq Hn1 Hp1 Hn2 Hp2 Hwh.
    rewrite main_drain_full_size by exact Hn1.
    rewrite (main_dispatch_button _ _ B) by exact Hp1.
    unfold pass_to_classifier, bind at 1.
    rewrite Button_idle by assumption. cbn [fst snd negb]. unfold ret at 1.
    destruct (main_drain_wheels mice_fd wheels (r2 :: rq)
                (Pending B (clock (log (EvRead r1) s) (ticks (log (EvRead r1) s))))
                Hwh (snd (gettimeofday (log (EvRead r1) s))))
      as (s' & E & Ho & _ & _).
    rewrite E.
    rewrite main_drain_full_size by exact Hn2.
    rewrite (main_dispatch_button _ _ B) by exact Hp2.
    unfold pass_to_classifier, bind at 1.
    rewrite Button_double by exact HB. cbn [fst snd negb]. unfold ret.
    do 2 eexists. split; [reflexivity|]. split; [split; reflexivity|].
    rewrite stdout_log_printf, stdout_log_silent by reflexivity.
    rewrite Ho, stdout_gettimeofday, stdout_log_silent by reflexivity.
    now rewrite <- app_assoc.
  - intros armed_at sel sq wheels b rq s0 Hs Hi Hwh Hn He Hw.
    rewrite main_loop_ready by assumption.
    destruct (main_drain_wheels mice_fd wheels (b :: rq) (Pending B armed_at)
                Hwh (log (EvSelect sel) s0)) as (s' & E & Ho & Hc & Ht).
    rewrite E, main_drain_would_block by assumption.
    rewrite Timer_pending_early.
    + eexists. split; [reflexivity|].
      rewrite stdout_gettimeofday, stdout_log_silent by reflexivity.
      rewrite Ho. now rewrite stdout_log_silent by reflexivity.
    + cbn [log clock ticks]. now rewrite Hc, Ht.
Qed.

(** ** Exit status *)

Lemma calm_not_quit (t : list event) :
  Forall calm t -> ~ In (line "q") (stdout_of t).
Proof.
  induction 1 as [|e t [_ He] _ IH]; [intros []|].
  change (stdout_of (e :: t)) with (printed e ++ stdout_of t).
  intros Hin. apply in_app_or in Hin. destruct Hin as [Hin | Hin]; [|tauto].
  destruct e; try (now destruct Hin).
  destruct Hin as [E | []]. apply He. now rewrite E.
Qed.

Lemma calm_not_fatal (t : list event) :
  Forall calm t -> ~ Exists fatal t.
Proof.
  intros Hc Hf. apply Exists_exists in Hf. destruct Hf as (e & Hin & Hf).
  rewrite Forall_forall in Hc. now destruct (Hc e Hin).
Qed.

Lemma calm_snoc (t : list event) (e : event) :
  Forall calm t -> calm e -> Forall calm (t ++ [e]).
Proof. intros Ht He. apply Forall_app. split; [exact Ht | now constructor]. Qed.

Ltac calm_event := split; [cbn; tauto | discriminate].

Lemma Button_trace (type : Z) (this : ButtonProcess) (s : Sys) :
  type = BTN_LEFT \/ type = BTN_RIGHT ->
  well_formed this ->
  exists r this' s',
    Button type this s = (Ok (r, this'), s') /\ well_formed this' /\
    ((r = true /\ exists e, trace s' = trace s ++ [e] /\ calm e) \/
     (r = false /\ trace s' = trace s ++ [EvPrintf (line "q")])).
Proof.
  intros Ht Hw. destruct this as [pre cur tm].
  destruct Hw as [[Hp Hb] | [Hp Hb]]; cbn in Hp, Hb; subst tm.
  - subst pre. destruct Ht as [-> | ->];
      (do 3 eexists; split; [reflexivity|]; split;
       [right; split; [cbn; tauto | reflexivity]|];
       left; split; [reflexivity|]; eexists; split; [reflexivity|]; calm_event).
  - destruct Hp as [-> | ->], Ht as [-> | ->];
      (do 3 eexists; split; [reflexivity|]; split;
       [left; split; reflexivity|]);
      first [ right; split; reflexivity
            | left; split; [reflexivity|]; eexists; split;
              [reflexivity | calm_event] ].
Qed.

Lemma Timer_trace (this : ButtonProcess) (s : Sys) :
  well_formed this ->
  exists this' s',
    Timer this s = (Ok this', s') /\ well_formed this' /\
    exists evs, trace s' = trace s ++ evs /\ Forall calm evs.
Proof.
  intros Hw. destruct this as [pre cur tm].
  destruct Hw as [[Hp Hb] | [Hp Hb]]; cbn in Hp, Hb; subst tm.
  - run_proc. do 2 eexists. split; [reflexivity|]. split; [left; now split|].
    exists []. split; [now rewrite app_nil_r | constructor].
  - run_proc. unfold gettimeofday at 1.
    destruct (300 <=? tv_interval_ms (clock s (ticks s)) cur).
    + destruct Hp as [-> | ->]; cbn;
        (do 2 eexists; split; [reflexivity|]; split;
         [left; split; reflexivity|]; eexists; split;
         [unfold log; cbn [trace]; rewrite <- app_assoc; reflexivity|];
         repeat constructor; first [cbn; tauto | discriminate]).
    + do 2 eexists. split; [reflexivity|]. split; [right; now split|].
      eexists. split; [reflexivity|]. repeat constructor; [cbn; tauto | discriminate].
Qed.

Lemma pass_to_classifier_trace (mice_fd type : Z) (this : ButtonProcess)
    (s : Sys) :
  type = BTN_LEFT \/ type = BTN_RIGHT ->
  well_formed this ->
  (exists this' s' evs,
     pass_to_classifier mice_fd type this s = (Ok (Next this'), s') /\
     well_formed this' /\ trace s' = trace s ++ evs /\ Forall calm evs)
  \/
  (exists s',
     pass_to_classifier mice_fd type this s = (Ok (Return 0), s') /\
     trace s' = trace s ++ [EvPrintf (line "q"); EvClose mice_fd]).
Proof.
  intros Ht Hw.
  destruct (Button_trace type this s Ht Hw)
    as (r & this' & s' & E & Hw' & [[-> (e & Htr & He)] | [-> Htr]]);
    [left | right]; unfold pass_to_classifier, bind at 1; rewrite E;
    cbn [fst snd negb].
  - exists this', s', [e]. repeat split; try assumption.
    now constructor.
  - eexists. split; [reflexivity|].
    unfold log; cbn [trace]. rewrite Htr, <- app_assoc. reflexivity.
Qed.

Lemma main_dispatch_trace (mice_fd : Z) (data : imps2_data)
    (this : ButtonProcess) (s : Sys) :
  well_formed this ->
  (exists this' s' evs,
     main_dispatch mice_fd data this s = (Ok (Next this'), s') /\
     well_formed this' /\ trace s' = trace s ++ evs /\ Forall calm evs)
  \/
  (exists s',
     main_dispatch mice_fd data this s = (Ok (Return 0), s') /\
     trace s' = trace s ++ [EvPrintf (line "q"); EvClose mice_fd]).
Proof.
  intros Hw.
  assert (Hsame : exists this' s' evs,
             (Ok (Next this), s) = (Ok (Next this'), s') /\
             well_formed this' /\ trace s' = trace s ++ evs /\ Forall calm evs).
  { exists this, s, []. repeat split; try assumption;
      [now rewrite app_nil_r | constructor]. }
  assert (Hprint : forall l, l <> line "q" ->
             exists this' s' evs,
               (Ok (Next this), log (EvPrintf l) s) = (Ok (Next this'), s') /\
               well_formed this' /\ trace s' = trace s ++ evs /\
               Forall calm evs).
  { intros l Hl. exists this, (log (EvPrintf l) s), [EvPrintf l].
    repeat split; try assumption. constructor; [|constructor].
    split; [cbn; tauto | congruence]. }
  unfold main_dispatch.
  destruct ((z data =? 0) && (x data =? 0) && (y data =? 0)).
  - destruct (btn_left data).
    + apply pass_to_classifier_trace; [now left | exact Hw].
    + destruct (btn_right data).
      * apply pass_to_classifier_trace; [now right | exact Hw].
      * destruct (btn_middle data); left; [|exact Hsame].
        apply Hprint. discriminate.
  - left. destruct (negb (z data =? 0)); [|exact Hsame].
    destruct (z data >? 0); apply Hprint; discriminate.
Qed.

Lemma main_drain_verdict (mice_fd : Z) (rq : list read_ret) :
  forall this s,
    well_formed this -> Forall calm (trace s) ->
    match main_drain mice_fd rq this s with
    | (Stop o, s') => verdict mice_fd o (trace s')
    | (Break _ this', s') => well_formed this' /\ Forall calm (trace s')
    end.
Proof.
  induction rq as [|r rq IH]; intros this s Hw Hc; cbn [main_drain].
  - exact Hc.
  - destruct (nLen r =? 0) eqn:E0.
    { right. split; [reflexivity|]. exists (trace s), (EvRead r).
      repeat split; try assumption. left. now apply Z.eqb_eq. }
    destruct (nLen r =? -1) eqn:E1.
    { destruct (rd_errno r =? EAGAIN) eqn:Ee; cbn [negb].
      - split; [exact Hw|]. apply calm_snoc; [exact Hc|].
        apply Z.eqb_neq in E0. apply Z.eqb_eq in Ee.
        split; [cbn; tauto | discriminate].
      - right. split; [reflexivity|]. exists (trace s), (EvRead r).
        repeat split; try assumption. right.
        split; [now apply Z.eqb_eq | now apply Z.eqb_neq]. }
    assert (Hr : Forall calm (trace (log (EvRead r) s))).
    { apply calm_snoc; [exact Hc|].
      apply Z.eqb_neq in E0. apply Z.eqb_neq in E1.
      split; [cbn; tauto | discriminate]. }
    destruct (nLen r =? sizeof_data); [|now apply IH].
    destruct (main_dispatch_trace mice_fd (overlay (rd_data r)) this
                (log (EvRead r) s) Hw)
      as [(this' & s' & evs & E & Hw' & Htr & Hev) | (s' & E & Htr)];
      rewrite E.
    + apply IH; [exact Hw'|]. rewrite Htr. apply Forall_app. now split.
    + left. split; [reflexivity|]. eexists. split; [exact Htr | exact Hr].
Qed.

Lemma main_loop_verdict (mice_fd : Z) (sq : list select_ret) :
  forall rq this s,
    well_formed this -> Forall calm (trace s) ->
    verdict mice_fd (fst (main_loop mice_fd sq rq this s))
      (trace (snd (main_loop mice_fd sq rq this s))).
Proof.
  induction sq as [|sel sq IH]; intros rq this s Hw Hc; cbn [main_loop].
  - exact Hc.
  - destruct (sel_ret sel <? 0) eqn:Es.
    { right. split; [reflexivity|]. exists (trace s), (EvSelect sel).
      repeat split; try assumption. cbn. now apply Z.ltb_lt. }
    assert (Hs : Forall calm (trace (log (EvSelect sel) s))).
    { apply calm_snoc; [exact Hc|]. apply Z.ltb_ge in Es.
      split; [cbn; lia | discriminate]. }
    assert (Hstep : forall rq' this' s',
               well_formed this' -> Forall calm (trace s') ->
               verdict mice_fd
                 (fst (match Timer this' s' with
                       | (Ok b, s'') => main_loop mice_fd sq rq' b s''
                       | (AssertFail, s'') => (Aborted, s'')
                       end))
                 (trace (snd (match Timer this' s' with
                              | (Ok b, s'') => main_loop mice_fd sq rq' b s''
                              | (AssertFail, s'') => (Aborted, s'')
                              end)))).
    { intros rq' this' s' Hw' Hc'.
      destruct (Timer_trace this' s' Hw') as (b & s'' & E & Hb & evs & Htr & Hev).
      rewrite E. apply IH; [exact Hb|]. rewrite Htr. apply Forall_app. now split. }
    destruct (sel_isset sel).
    + pose proof (main_drain_verdict mice_fd rq this _ Hw Hs) as Hd.
      destruct (main_drain mice_fd rq this (log (EvSelect sel) s))
        as [[rq' this' | o] s'].
      * destruct Hd as [Hw' Hc']. now apply Hstep.
      * exact Hd.
    + now apply Hstep.
Qed.

Lemma main_verdict (dev : Device) (clk : nat -> timeval) :
  verdict (open_ret dev) (fst (main dev (boot clk)))
    (trace (snd (main dev (boot clk)))).
Proof.
  unfold main.
  destruct (open_ret dev =? -1) eqn:Eo.
  { right. split; [reflexivity|]. exists [], (EvOpen (open_ret dev)).
    repeat split; [constructor | now apply Z.eqb_eq]. }
  destruct (write_ret dev <? 0) eqn:Ew.
  { right. split; [reflexivity|].
    exists [EvOpen (open_ret dev)], (EvWrite (write_ret dev)).
    repeat split; [|now apply Z.ltb_lt].
    constructor; [|constructor]. apply Z.eqb_neq in Eo.
    split; [exact Eo | discriminate]. }
  apply main_loop_verdict.
  - left. split; reflexivity.
  - apply Z.eqb_neq in Eo. apply Z.ltb_ge in Ew.
    repeat constructor; first [exact Eo | cbn; lia | discriminate].
Qed.

(** The five failures, each at the call where [main] sees it. *)
Lemma main_open_failed (dev : Device) (s : Sys) :
  open_ret dev = -1 ->
  main dev s = (Exit 1, log (EvOpen (open_ret dev)) s).
Proof. intros H. unfold main. rewrite H. reflexivity. Qed.

Lemma main_write_failed (dev : Device) (s : Sys) :
  open_ret dev <> -1 -> write_ret dev < 0 ->
  main dev s
    = (Exit 1, log (EvWrite (write_ret dev)) (log (EvOpen (open_ret dev)) s)).
Proof.
  intros Ho Hw. unfold main.
  apply Z.eqb_neq in Ho. apply Z.ltb_lt in Hw. now rewrite Ho, Hw.
Qed.

Lemma main_loop_select_failed (mice_fd : Z) (sel : select_ret)
    (sq : list select_ret) (rq : list read_ret) (this : ButtonProcess)
    (s : Sys) :
  sel_ret sel < 0 ->
  main_loop mice_fd (sel :: sq) rq this s = (Exit 1, log (EvSelect sel) s).
Proof. intros H. cbn [main_loop]. apply Z.ltb_lt in H. now rewrite H. Qed.

Lemma main_drain_end_of_file (mice_fd : Z) (b : read_ret)
    (rq : list read_ret) (this : ButtonProcess) (s : Sys) :
  nLen b = 0 ->
  main_drain mice_fd (b :: rq) this s = (Stop (Exit 1), log (EvRead b) s).
Proof. intros H. cbn [main_drain]. now rewrite H. Qed.

Lemma main_drain_read_failed (mice_fd : Z) (b : read_ret)
    (rq : list read_ret) (this : ButtonProcess) (s : Sys) :
  nLen b = -1 -> rd_errno b <> EAGAIN ->
  main_drain mice_fd (b :: rq) this s = (Stop (Exit 1), log (EvRead b) s).
Proof.
  intros H He. cbn [main_drain]. apply Z.eqb_neq in He.
  now rewrite H, He.
Qed.

(** C8. A run exits with status 0 exactly when the quit line was printed,
    and with status 1 exactly when a call failed: [open] returned -1, the
    mode-switch [write] or [select] returned a negative value, [read]
    returned 0, or [read] returned -1 with [errno] other than EAGAIN; these
    are the only statuses, and no assertion fails.  A [read] that returns
    -1 with EAGAIN only ends the current drain: the loop goes on with
    [Timer] and the next [select].  Each failure is also stated at the
    call itself, on the answers of the device: [main] returns 1 right
    after an [open] that gives -1 and after a mode-switch [write] that
    gives a negative value, the loop returns 1 right after a [select]
    that gives a negative value, and the drain (and the loop around it)
    returns 1 right after a [read] that gives 0 or gives -1 with [errno]
    other than EAGAIN, whatever the classifier holds and whatever is
    still to come from the device; no [close] is made on these paths. *)
Theorem main_exit_status (dev : Device) (clk : nat -> timeval) :
  let r := main dev (boot clk) in
  (fst r = Exit 0 <-> In (line "q") (stdout (snd r)))
  /\ (fst r = Exit 1 <-> Exists fatal (trace (snd r)))
  /\ (forall status, fst r = Exit status -> status = 0 \/ status = 1)
  /\ fst r <> Aborted
  /\ (forall mice_fd b rq this s,
        nLen b = -1 -> rd_errno b = EAGAIN ->
        main_drain mice_fd (b :: rq) this s = (Break rq this, log (EvRead b) s)
        /\ forall sel sq,
             0 <= sel_ret sel -> sel_isset sel = true ->
             main_loop mice_fd (sel :: sq) (b :: rq) this s =
               match Timer this (log (EvRead b) (log (EvSelect sel) s)) with
               | (Ok this', s') => main_loop mice_fd sq rq this' s'
               | (AssertFail, s') => (Aborted, s')
               end)
  /\ (forall d s,
        open_ret d = -1 ->
        main d s = (Exit 1, log (EvOpen (open_ret d)) s))
  /\ (forall d s,
        open_ret d <> -1 -> write_ret d < 0 ->
        main d s
          = (Exit 1,
             log (EvWrite (write_ret d)) (log (EvOpen (open_ret d)) s)))
  /\ (forall mice_fd sel sq rq this s,
        sel_ret sel < 0 ->
        main_loop mice_fd (sel :: sq) rq this s
          = (Exit 1, log (EvSelect sel) s))
  /\ (forall mice_fd b rq this s,
        nLen b = 0 \/ (nLen b = -1 /\ rd_errno b <> EAGAIN) ->
        main_drain mice_fd (b :: rq) this s
          = (Stop (Exit 1), log (EvRead b) s)
        /\ forall sel sq,
             0 <= sel_ret sel -> sel_isset sel = true ->
             main_loop mice_fd (sel :: sq) (b :: rq) this s
               = (Exit 1, log (EvRead b) (log (EvSelect sel) s)))
  /\ (forall d s sel sq b rq,
        open_ret d <> -1 -> 0 <= write_ret d ->
        select_q d = sel :: sq -> read_q d = b :: rq ->
        (sel_ret sel < 0 -> fst (main d s) = Exit 1)
        /\ (0 <= sel_ret sel -> sel_isset sel = true ->
            nLen b = 0 \/ (nLen b = -1 /\ rd_errno b <> EAGAIN) ->
            fst (main d s) = Exit 1)).
Proof.
  intros r. pose proof (main_verdict dev clk) as V. fold r in V.
  assert (Hfail : forall mice_fd b rq this s,
             nLen b = 0 \/ (nLen b = -1 /\ rd_errno b <> EAGAIN) ->
             main_drain mice_fd (b :: rq) this s
             = (Stop (Exit 1), log (EvRead b) s)).
  { intros mice_fd b rq this s [H | [H He]];
      [now apply main_drain_end_of_file | now apply main_drain_read_failed]. }
  assert (Hq : forall t0 e, stdout_of (t0 ++ [EvPrintf (line "q"); e])
                            = stdout_of t0 ++ line "q" :: printed e).
  { intros t0 e. rewrite stdout_of_app. cbn. now rewrite app_nil_r. }
  split; [|split; [|split; [|split; [|split; [|split; [|split; [|split;
    [|split]]]]]]]].
  - split.
    + intros E. rewrite E in V. destruct V as [[_ (t0 & Ht & _)] | [H _]];
        [|discriminate].
      unfold stdout. rewrite Ht, Hq. apply in_or_app. right. now left.
    + intros Hin. unfold stdout in Hin. destruct (fst r) as [status| |].
      * destruct V as [[-> _] | [_ (t0 & e & Ht & Hc & Hf)]]; [reflexivity|].
        exfalso. rewrite Ht, stdout_of_app in Hin.
        apply in_app_or in Hin. destruct Hin as [Hin | Hin].
        -- now apply (calm_not_quit t0 Hc).
        -- destruct e; cbn in Hin, Hf; tauto.
      * destruct V.
      * exfalso. now apply (calm_not_quit _ V).
  - split.
    + intros E. rewrite E in V. destruct V as [[H _] | [_ (t0 & e & Ht & _ & Hf)]];
        [discriminate|].
      rewrite Ht. apply Exists_app. right. now constructor.
    + intros Hex. destruct (fst r) as [status| |].
      * destruct V as [[_ (t0 & Ht & Hc)] | [-> _]]; [|reflexivity].
        exfalso. rewrite Ht in Hex. apply Exists_app in Hex.
        destruct Hex as [Hex | Hex]; [now apply (calm_not_fatal t0 Hc)|].
        inversion Hex as [? ? Hf | ? ? Hex']; subst; [exact Hf|].
        inversion Hex' as [? ? Hf | ? ? Hex'']; subst; [exact Hf|].
        inversion Hex''.
      * destruct V.
      * exfalso. now apply (calm_not_fatal _ V).
  - intros status E. rewrite E in V. destruct V as [[-> _] | [-> _]]; auto.
  - intros E. rewrite E in V. exact V.
  - intros mice_fd b rq this s Hn He.
    split; [now apply main_drain_would_block|].
    intros sel sq Hs Hi. rewrite main_loop_ready by assumption.
    now rewrite main_drain_would_block.
  - intros d s. apply main_open_failed.
  - intros d s. apply main_write_failed.
  - intros mice_fd sel sq rq this s. apply main_loop_select_failed.
  - intros mice_fd b rq this s Hb. split; [now apply Hfail|].
    intros sel sq Hs Hi. rewrite main_loop_ready by assumption.
    now rewrite Hfail.
  - intros d s sel sq b rq Ho Hw Hsq Hrq.
    assert (E : main d s
                = main_loop (open_ret d) (sel :: sq) (b :: rq)
                    ButtonProcess_new
                    (log (EvWrite (write_ret d))
                       (log (EvOpen (open_ret d)) s))).
    { unfold main. apply Z.eqb_neq in Ho. apply Z.ltb_ge in Hw.
      now rewrite Ho, Hw, Hsq, Hrq. }
    rewrite E. split.
    + intros Hs. now rewrite main_loop_select_failed.
    + intros Hs Hi Hb. rewrite main_loop_ready by assumption.
      now rewrite Hfail.
Qed.

(** ** Instances *)

Lemma Timer_pending_deadline_witness :
  (300 <= tv_interval_ms t_late t_armed /\
   stdout (snd (Timer (Pending BTN_LEFT t_armed) (boot (clock_at t_late))))
     = [line "<"])
  /\
  (tv_interval_ms t_early t_armed < 300 /\
   Timer (Pending BTN_RIGHT t_armed) (boot (clock_at t_early))
     = (Ok (Pending BTN_RIGHT t_armed),
        snd (gettimeofday (boot (clock_at t_early))))).
Proof.
  assert (Hlate : 300 <= tv_interval_ms t_late t_armed).
  { apply Z.leb_le. vm_compute. reflexivity. }
  assert (Hearly : tv_interval_ms t_early t_armed < 300).
  { apply Z.ltb_lt. vm_compute. reflexivity. }
  split; (split; [assumption|]).
  - pose proof (Timer_pending_deadline BTN_LEFT t_armed (boot (clock_at t_late))
                  (or_introl eq_refl)) as H.
    cbv zeta in H. destruct H as [H _].
    destruct (H Hlate) as (_ & Ho & _). exact Ho.
  - pose proof (Timer_pending_deadline BTN_RIGHT t_armed
                  (boot (clock_at t_early)) (or_intror eq_refl)) as H.
    cbv zeta in H. destruct H as [_ [H _]].
    destruct (H Hearly) as (E & _). exact E.
Defined.

Lemma Button_same_pending_double_click_witness :
  stdout (snd (Button BTN_RIGHT (Pending BTN_RIGHT t_armed)
                 (boot (clock_at t_early))))
    = [line "x"].
Proof.
  pose proof (Button_same_pending_double_click BTN_RIGHT t_armed
                (boot (clock_at t_early)) (or_intror eq_refl)) as H.
  cbv zeta in H. destruct H as (_ & Ho & _). exact Ho.
Defined.

Lemma Button_other_pending_quit_witness :
  BTN_RIGHT <> BTN_LEFT /\
  main_loop 3 [ready] [right_press; would_block] (Pending BTN_LEFT t_armed)
    (boot (clock_at t_early))
  = (Exit 0,
     log (EvClose 3)
       (log (EvPrintf (line "q"))
          (log (EvRead right_press)
             (log (EvSelect ready) (boot (clock_at t_early)))))).
Proof.
  assert (Hne : BTN_RIGHT <> BTN_LEFT) by discriminate.
  split; [exact Hne|].
  destruct (Button_other_pending_quit BTN_LEFT BTN_RIGHT t_armed
              (boot (clock_at t_early)) (or_introl eq_refl)
              (or_intror eq_refl) Hne) as (_ & _ & _ & _ & H).
  apply H.
  - vm_compute. discriminate.
  - reflexivity.
  - reflexivity.
  - unfold reports. repeat split. right. repeat split.
Defined.

Lemma main_dispatch_priority_witness :
  main_dispatch 3 (overlay (rd_data right_press)) ButtonProcess_new
    (boot (clock_at t_armed))
  = pass_to_classifier 3 BTN_RIGHT ButtonProcess_new (boot (clock_at t_armed)).
Proof.
  destruct (main_dispatch_priority 3 (overlay (rd_data right_press))
              ButtonProcess_new (boot (clock_at t_armed))
              eq_refl eq_refl eq_refl) as (_ & H & _).
  apply H; reflexivity.
Defined.

Lemma classifier_invariant_witness :
  reachable (Pending BTN_LEFT t_armed) /\
  ((m_bTimer (Pending BTN_LEFT t_armed) = true ->
    m_btnPre (Pending BTN_LEFT t_armed) <> BTN_NULL) /\
   (m_btnPre (Pending BTN_LEFT t_armed) = BTN_NULL ->
    m_bTimer (Pending BTN_LEFT t_armed) = false)).
Proof.
  assert (Hr : reachable (Pending BTN_LEFT t_armed)).
  { apply (reach_Button BTN_LEFT ButtonProcess_new (boot (clock_at t_armed))
             true (Pending BTN_LEFT t_armed)
             (snd (gettimeofday (boot (clock_at t_armed))))).
    - exact reach_new.
    - reflexivity. }
  split; [exact Hr|].
  exact (proj1 (classifier_invariant (Pending BTN_LEFT t_armed) Hr)).
Defined.

Lemma main_dispatch_wheel_output_witness :
  stdout (snd (main_dispatch 3 (overlay (rd_data wheel_down)) ButtonProcess_new
                 (boot (clock_at t_armed))))
    = [line "9"]
  /\
  stdout (snd (main_dispatch 3 (overlay (rd_data wheel_up)) ButtonProcess_new
                 (boot (clock_at t_armed))))
    = [line "0"].
Proof.
  split.
  - destruct (main_dispatch_wheel_output 3 (overlay (rd_data wheel_down))
                ButtonProcess_new (boot (clock_at t_armed))
                eq_refl eq_refl eq_refl) as (H & _ & _).
    + vm_compute. discriminate.
    + destruct H as [_ Ho]; [reflexivity | exact Ho].
  - destruct (main_dispatch_wheel_output 3 (overlay (rd_data wheel_up))
                ButtonProcess_new (boot (clock_at t_armed))
                eq_refl eq_refl eq_refl) as (_ & H & _).
    + vm_compute. discriminate.
    + destruct H as [_ Ho]; [reflexivity | exact Ho].
Defined.

Lemma wheel_keeps_pending_witness :
  exists this' s',
    main_activities 3
      (Report (overlay (rd_data left_press))
         :: [Report (overlay (rd_data wheel_down)); Deadline;
             Report (overlay (rd_data wheel_up))]
         ++ [Report (overlay (rd_data left_press))])
      ButtonProcess_new (boot (clock_at t_armed))
    = (Ok (Next this'), s')
    /\ Idle this'
    /\ stdout s' = [line "9"; line "0"; line "z"].
Proof.
  destruct (wheel_keeps_pending 3 BTN_LEFT ButtonProcess_new
              (boot (clock_at t_armed)) (or_introl eq_refl)
              (conj eq_refl eq_refl)) as (_ & H & _).
  apply H.
  - unfold reports. repeat split. left. repeat split.
  - unfold reports. repeat split. left. repeat split.
  - repeat constructor; vm_compute; discriminate.
  - intros n _. vm_compute. reflexivity.
Defined.

Lemma main_exit_status_witness :
  fst (main (device [ready] [left_press; right_press; would_block])
         (boot (clock_at t_armed)))
    = Exit 0
  /\
  fst (main (device [ready] [left_press; mk_read_ret 0 0 []])
         (boot (clock_at t_armed)))
    = Exit 1
  /\
  fst (main (mk_Device (-1) 6 [ready] [left_press])
         (boot (clock_at t_armed)))
    = Exit 1
  /\
  fst (main (mk_Device 3 (-1) [ready] [left_press])
         (boot (clock_at t_armed)))
    = Exit 1
  /\
  fst (main (device [mk_select_ret (-1) false] [left_press])
         (boot (clock_at t_armed)))
    = Exit 1
  /\
  fst (main (device [ready] [mk_read_ret (-1) 5 []; left_press])
         (boot (clock_at t_armed)))
    = Exit 1.
Proof.
  split; [|split].
  - apply (proj1 (main_exit_status _ _)). vm_compute. left. reflexivity.
  - apply (proj1 (proj2 (main_exit_status _ _))).
    apply Exists_exists. exists (EvRead (mk_read_ret 0 0 [])).
    split; [vm_compute; tauto | left; reflexivity].
  - destruct (main_exit_status (device [] []) (clock_at t_armed))
      as (_ & _ & _ & _ & _ & Hopen & Hwrite & _ & _ & Hmain).
    split; [|split; [|split]].
    + rewrite Hopen; reflexivity.
    + rewrite Hwrite; [reflexivity | discriminate | reflexivity].
    + destruct (Hmain (device [mk_select_ret (-1) false] [left_press])
                  (boot (clock_at t_armed)) (mk_select_ret (-1) false) []
                  left_press []) as [H _];
        [discriminate | vm_compute; discriminate | reflexivity
        | reflexivity |].
      apply H. reflexivity.
    + destruct (Hmain (device [ready] [mk_read_ret (-1) 5 []; left_press])
                  (boot (clock_at t_armed)) ready []
                  (mk_read_ret (-1) 5 []) [left_press]) as [_ H];
        [discriminate | vm_compute; discriminate | reflexivity
        | reflexivity |].
      apply H; [vm_compute; discriminate | reflexivity|].
      right. split; [reflexivity | discriminate].
Defined.

Lemma Timer_idle_noop_witness :
  Timer_times 3 ButtonProcess_new (boot (clock_at t_late))
    = (Ok ButtonProcess_new, boot (clock_at t_late)).
Proof.
  apply (proj1 (Timer_idle_noop ButtonProcess_new 3 (boot (clock_at t_late)))).
  split; reflexivity.
Defined.

Lemma main_dispatch_motion_ignored_witness :
  btn_left (overlay (rd_data left_drag)) = true /\
  main_dispatch 3 (overlay (rd_data left_drag)) (Pending BTN_RIGHT t_armed)
    (boot (clock_at t_early))
  = (Ok (Next (Pending BTN_RIGHT t_armed)), boot (clock_at t_early)).
Proof.
  split; [reflexivity|].
  apply (main_dispatch_motion_ignored 3 (overlay (rd_data left_drag))).
  - reflexivity.
  - left. vm_compute. discriminate.
Defined.

(** ** The scenarios of the specification *)

(** The interval is taken between times cut down to whole milliseconds:
    299001 microseconds apart can already count as 300 ms. *)
Example tv_interval_ms_truncates :
  tv_interval_ms {| tv_sec := 10; tv_usec := 300000 |}
                 {| tv_sec := 10; tv_usec := 999 |} = 300.
Proof. reflexivity. Qed.

Example scenario_double_click :
  run (device [ready; ready; timed_out]
         [left_press; would_block; left_press; would_block])
      (clock_every 50)
  = (Unfinished, [line "z"]).
Proof. vm_compute. reflexivity. Qed.

Example scenario_single_click :
  run (device [ready; timed_out; timed_out; timed_out; timed_out;
               timed_out; timed_out; timed_out]
         [left_press; would_block])
      (clock_every 50)
  = (Unfinished, [line "<"]).
Proof. vm_compute. reflexivity. Qed.

Example scenario_quit :
  run (device [ready; ready] [left_press; right_press; would_block])
      (clock_every 50)
  = (Exit 0, [line "q"]).
Proof. vm_compute. reflexivity. Qed.

Example scenario_wheel :
  run (device [ready] [wheel_down; wheel_up; would_block]) (clock_every 50)
  = (Unfinished, [line "9"; line "0"]).
Proof. vm_compute. reflexivity. Qed.

Example scenario_wheel_between_presses :
  run (device [ready; ready; timed_out; ready]
         [left_press; wheel_down; would_block; wheel_up; would_block;
          left_press; would_block])
      (clock_every 50)
  = (Unfinished, [line "9"; line "0"; line "z"]).
Proof. vm_compute. reflexivity. Qed.

Example scenario_middle :
  run (device [ready; ready]
         [left_press; middle_press; would_block; left_press; would_block])
      (clock_every 50)
  = (Unfinished, [line "p"; line "z"]).
Proof. vm_compute. reflexivity. Qed.

Example scenario_end_of_stream :
  run (device [ready] [left_press; mk_read_ret 0 0 []]) (clock_every 50)
  = (Exit 1, []).
Proof. vm_compute. reflexivity. Qed.

(** * Further properties of the code *)

(** ** The millisecond arithmetic of [Timer] *)

Lemma wrap_long_mod (v : Z) : wrap_long v mod 2 ^ 64 = v mod 2 ^ 64.
Proof.
  unfold wrap_long. rewrite Zminus_mod_idemp_l. f_equal. lia.
Qed.

Lemma wrap_long_congr (a b : Z) :
  a mod 2 ^ 64 = b mod 2 ^ 64 -> wrap_long a = wrap_long b.
Proof.
  intros H. unfold wrap_long.
  rewrite (Z.add_mod a), (Z.add_mod b), H by lia. reflexivity.
Qed.

Lemma tv_interval_ms_mod (tv cur : timeval) :
  tv_interval_ms tv cur = wrap_long (tv_plain_ms tv - tv_plain_ms cur).
Proof.
  assert (Hms : forall t, tv_ms t mod 2 ^ 64 = tv_plain_ms t mod 2 ^ 64).
  { intros t. unfold tv_ms, tv_plain_ms. rewrite wrap_long_mod.
    rewrite Z.add_mod, wrap_long_mod, <- Z.add_mod by lia. reflexivity. }
  unfold tv_interval_ms. apply wrap_long_congr.
  rewrite Zminus_mod, !Hms, <- Zminus_mod. reflexivity.
Qed.

(** X1. Intermediate wrap-around does no harm: whenever the difference of
    the two times in whole milliseconds fits a [long], [Timer] computes
    exactly that difference, whatever the two readings are. *)
Theorem tv_interval_ms_no_overflow (tv cur : timeval) :
  - 2 ^ 63 <= tv_plain_ms tv - tv_plain_ms cur < 2 ^ 63 ->
  tv_interval_ms tv cur = tv_plain_ms tv - tv_plain_ms cur.
Proof.
  intros H. rewrite tv_interval_ms_mod. now apply wrap_long_small.
Qed.

(** X2. For readings of a real clock the interval differs from the elapsed
    microseconds by less than one millisecond: the deadline is always seen
    once 300000 microseconds have passed, and never before 299001. *)
Theorem tv_interval_ms_microseconds (tv cur : timeval) :
  realistic tv -> realistic cur ->
  let elapsed := tv_microseconds tv - tv_microseconds cur in
  1000 * tv_interval_ms tv cur - 1000 < elapsed
    < 1000 * tv_interval_ms tv cur + 1000
  /\ (300000 <= elapsed -> 300 <= tv_interval_ms tv cur)
  /\ (elapsed <= 299000 -> tv_interval_ms tv cur < 300).
Proof.
  intros [Hs Hu] [Hs' Hu'] elapsed.
  rewrite tv_interval_ms_exact by assumption.
  subst elapsed. unfold tv_microseconds.
  pose proof (Z.div_mod (tv_usec tv) 1000 ltac:(lia)) as D.
  pose proof (Z.mod_pos_bound (tv_usec tv) 1000 ltac:(lia)) as B.
  pose proof (Z.div_mod (tv_usec cur) 1000 ltac:(lia)) as D'.
  pose proof (Z.mod_pos_bound (tv_usec cur) 1000 ltac:(lia)) as B'.
  lia.
Qed.

(** ** The overlay of the report *)

Lemma byte_value_bounds (b : byte) : 0 <= byte_value b <= 255.
Proof.
  unfold byte_value. pose proof (Byte.to_N_bounded b). lia.
Qed.

Lemma byte_value_inj (a b : byte) : byte_value a = byte_value b -> a = b.
Proof.
  unfold byte_value. intros H. apply N2Z.inj in H.
  pose proof (Byte.of_to_N a) as Ha. rewrite H, Byte.of_to_N in Ha.
  now inversion Ha.
Qed.

Lemma signed_char_value (b : byte) :
  signed_char b
    = if byte_value b <? 128 then byte_value b else byte_value b - 256.
Proof. reflexivity. Qed.

Lemma signed_char_inj (a b : byte) : signed_char a = signed_char b -> a = b.
Proof.
  rewrite !signed_char_value. intros H. apply byte_value_inj.
  pose proof (byte_value_bounds a). pose proof (byte_value_bounds b).
  destruct (byte_value a <? 128) eqn:Ea, (byte_value b <? 128) eqn:Eb;
    try apply Z.ltb_lt in Ea; try apply Z.ltb_ge in Ea;
    try apply Z.ltb_lt in Eb; try apply Z.ltb_ge in Eb; lia.
Qed.

Lemma to_bits_bit (b : byte) :
  Byte.to_bits b
    = (bit 0 b, (bit 1 b, (bit 2 b, (bit 3 b,
        (bit 4 b, (bit 5 b, (bit 6 b, bit 7 b))))))).
Proof. destruct b; reflexivity. Qed.

(** X3. Every member of a decoded report is a [signed char]: [x], [y] and
    [z] lie in -128..127, they agree with the byte modulo 256, and a
    member is zero exactly when its byte is zero. *)
Theorem overlay_bounds (b0 b1 b2 b3 : byte) :
  let data := overlay [b0; b1; b2; b3] in
  (-128 <= x data <= 127 /\ -128 <= y data <= 127 /\ -128 <= z data <= 127)
  /\ (x data mod 256 = byte_value b1 /\ y data mod 256 = byte_value b2 /\
      z data mod 256 = byte_value b3)
  /\ ((x data = 0 <-> b1 = x00) /\ (y data = 0 <-> b2 = x00) /\
      (z data = 0 <-> b3 = x00)).
Proof.
  assert (R : forall b, -128 <= signed_char b <= 127 /\
                        signed_char b mod 256 = byte_value b /\
                        (signed_char b = 0 <-> b = x00)).
  { intros b. rewrite signed_char_value.
    pose proof (byte_value_bounds b) as Hb.
    destruct (byte_value b <? 128) eqn:E;
      [apply Z.ltb_lt in E | apply Z.ltb_ge in E].
    - split; [lia|]. split; [apply Z.mod_small; lia|].
      split; intros H; [apply byte_value_inj; rewrite H; reflexivity|].
      now subst b.
    - split; [lia|]. split.
      + replace (byte_value b - 256) with (byte_value b + (-1) * 256) by lia.
        rewrite Z_mod_plus_full. apply Z.mod_small. lia.
      + split; intros H; [lia|]. subst b.
        change (byte_value x00) with 0 in E. lia. }
  intros data. subst data. unfold overlay, byte_at. cbn [nth x y z].
  destruct (R b1) as (? & ? & ?), (R b2) as (? & ? & ?),
    (R b3) as (? & ? & ?).
  repeat split; tauto || lia.
Qed.

(** X4. The overlay loses nothing: two four-byte buffers that decode to
    the same report are the same buffer. *)
Theorem overlay_injective (a0 a1 a2 a3 b0 b1 b2 b3 : byte) :
  overlay [a0; a1; a2; a3] = overlay [b0; b1; b2; b3] ->
  [a0; a1; a2; a3] = [b0; b1; b2; b3].
Proof.
  unfold overlay, byte_at. cbn [nth]. intros H.
  pose proof (f_equal btn_left H) as H0. pose proof (f_equal btn_right H) as H1.
  pose proof (f_equal btn_middle H) as H2. pose proof (f_equal NONE H) as H3.
  pose proof (f_equal x_sign H) as H4. pose proof (f_equal y_sign H) as H5.
  pose proof (f_equal x_overflow H) as H6.
  pose proof (f_equal y_overflow H) as H7.
  pose proof (f_equal x H) as Hx. pose proof (f_equal y H) as Hy.
  pose proof (f_equal z H) as Hz.
  cbn [btn_left btn_right btn_middle NONE x_sign y_sign x_overflow
       y_overflow x y z] in *.
  apply signed_char_inj in Hx, Hy, Hz. subst a1 a2 a3.
  f_equal.
  rewrite <- (Byte.of_bits_to_bits a0), <- (Byte.of_bits_to_bits b0).
  rewrite !to_bits_bit. now rewrite H0, H1, H2, H3, H4, H5, H6, H7.
Qed.

(** ** Sequences of calls on the classifier *)

(** X5. [Button] returns exactly when it is called with one of the two
    buttons, whatever the state of the classifier; with any other value the
    assertion fails before anything is printed or changed. *)
Theorem Button_type_checked (type : Z) (this : ButtonProcess) (s : Sys) :
  (type = BTN_LEFT \/ type = BTN_RIGHT <->
   exists r this' s', Button type this s = (Ok (r, this'), s'))
  /\ (type <> BTN_LEFT -> type <> BTN_RIGHT ->
      Button type this s = (AssertFail, s)).
Proof.
  assert (Hbad : type <> BTN_LEFT -> type <> BTN_RIGHT ->
                 Button type this s = (AssertFail, s)).
  { intros H1 H2. apply Z.eqb_neq in H1, H2.
    unfold Button, bind, assert. now rewrite H1, H2. }
  split; [|exact Hbad]. split.
  - intros Ht. destruct (BTN_cases _ Ht) as [Ha _].
    unfold Button, bind, assert. rewrite Ha.
    destruct (m_btnPre this =? BTN_NULL); [do 3 eexists; reflexivity|].
    destruct (negb (m_btnPre this =? type)); [do 3 eexists; reflexivity|].
    destruct (m_btnPre this =? BTN_LEFT); do 3 eexists; reflexivity.
  - intros (r & this' & s' & E).
    destruct (Z.eq_dec type BTN_LEFT) as [|H1]; [now left|].
    destruct (Z.eq_dec type BTN_RIGHT) as [|H2]; [now right|].
    rewrite (Hbad H1 H2) in E. discriminate E.
Qed.

Lemma Button_times_two (n : nat) (B : Z) (this : ButtonProcess) (s : Sys) :
  B = BTN_LEFT \/ B = BTN_RIGHT ->
  Idle this ->
  Button_times (S (S n)) B this s
    = Button_times n B (Reset (clock s (ticks s)))
        (log (EvPrintf (if B =? BTN_LEFT then line "z" else line "x"))
             (snd (gettimeofday s))).
Proof.
  intros HB Hi. cbn [Button_times]. unfold bind at 1.
  rewrite Button_idle by assumption. cbn [fst snd]. unfold bind at 1.
  rewrite Button_double by assumption. reflexivity.
Qed.

(** X6. Presses of one button pair up: [n] presses in a row, starting
    idle and with no [Timer] call in between, print a double click for
    every second press and nothing else; the classifier ends idle when [n]
    is even and holds the button when [n] is odd. *)
Theorem Button_times_pairs (B : Z) (n : nat) (this : ButtonProcess) (s : Sys) :
  B = BTN_LEFT \/ B = BTN_RIGHT ->
  Idle this ->
  exists this' s',
    Button_times n B this s = (Ok this', s')
    /\ stdout s'
       = stdout s ++ repeat (if B =? BTN_LEFT then line "z" else line "x")
                            (Nat.div2 n)
    /\ (if Nat.even n then Idle this'
        else exists armed_at, this' = Pending B armed_at).
Proof.
  intros HB. revert this s.
  assert (P : forall m,
             (forall this s, Idle this ->
                exists this' s',
                  Button_times m B this s = (Ok this', s')
                  /\ stdout s'
                     = stdout s
                       ++ repeat (if B =? BTN_LEFT then line "z" else line "x")
                                 (Nat.div2 m)
                  /\ (if Nat.even m then Idle this'
                      else exists armed_at, this' = Pending B armed_at))
             /\
             (forall this s, Idle this ->
                exists this' s',
                  Button_times (S m) B this s = (Ok this', s')
                  /\ stdout s'
                     = stdout s
                       ++ repeat (if B =? BTN_LEFT then line "z" else line "x")
                                 (Nat.div2 (S m))
                  /\ (if Nat.even (S m) then Idle this'
                      else exists armed_at, this' = Pending B armed_at))).
  { induction m as [|m [IH0 IH1]].
    - split; intros this s Hi.
      + exists this, s. split; [reflexivity|]. split; [|exact Hi].
        cbn [Nat.div2 repeat]. now rewrite app_nil_r.
      + cbn [Button_times]. unfold bind at 1.
        rewrite Button_idle by assumption. cbn [fst snd Button_times].
        do 2 eexists. split; [reflexivity|]. split.
        * cbn [Nat.div2 repeat]. rewrite app_nil_r.
          apply stdout_gettimeofday.
        * cbn. eexists. reflexivity.
    - split; [exact IH1|]. intros this s Hi.
      rewrite Button_times_two by assumption.
      destruct (IH0 (Reset (clock s (ticks s)))
                  (log (EvPrintf (if B =? BTN_LEFT then line "z" else line "x"))
                       (snd (gettimeofday s))))
        as (this' & s' & E & Ho & Hs); [split; reflexivity|].
      exists this', s'. split; [exact E|]. split; [|exact Hs].
      rewrite Ho, stdout_log_printf, stdout_gettimeofday.
      cbn [Nat.div2 repeat]. now rewrite <- app_assoc. }
  intros this s Hi. now apply (proj1 (P n)).
Qed.

(** X7. One press and then silence gives one single click: from idle,
    [Button(B)] followed by [Timer] calls, the first of which already
    reads a time 300 ms or more after the press, prints exactly the single
    click of B, whatever the number of further [Timer] calls, reads the
    clock twice in all, and leaves the classifier idle. *)
Theorem press_then_deadline (B : Z) (n : nat) (this : ButtonProcess) (s : Sys) :
  B = BTN_LEFT \/ B = BTN_RIGHT ->
  Idle this ->
  300 <= tv_interval_ms (clock s (S (ticks s))) (clock s (ticks s)) ->
  exists s',
    (r <- Button B this ;; Timer_times (S n) (snd r)) s
      = (Ok (Reset (clock s (ticks s))), s')
    /\ stdout s'
       = stdout s ++ [if B =? BTN_LEFT then line "<" else line ">"]
    /\ ticks s' = S (S (ticks s)).
Proof.
  intros HB Hi Hlate. unfold bind at 1.
  rewrite Button_idle by assumption. cbn [snd Timer_times]. unfold bind at 1.
  rewrite Timer_pending_late by assumption.
  rewrite Timer_times_disarmed by reflexivity.
  eexists. split; [reflexivity|]. split; [|reflexivity].
  now rewrite stdout_log_printf, !stdout_gettimeofday.
Qed.

(** ** Reports, short reads and time-outs in the loop *)

Lemma main_drain_short (mice_fd : Z) (r : read_ret) (rq : list read_ret)
    (this : ButtonProcess) (s : Sys) :
  short_read r ->
  main_drain mice_fd (r :: rq) this s
    = main_drain mice_fd rq this (log (EvRead r) s).
Proof.
  intros (H0 & H1 & H4). apply Z.eqb_neq in H0, H1, H4.
  cbn [main_drain]. now rewrite H0, H1, H4.
Qed.

(** X8. Reads that deliver some bytes but not a whole report (such as the
    one-byte acknowledge) are dropped: the drain goes on to the next
    [read] with the classifier unchanged, nothing printed and the clock
    not read. *)
Theorem main_drain_short_reads (mice_fd : Z) (shorts rq : list read_ret)
    (this : ButtonProcess) (s : Sys) :
  Forall short_read shorts ->
  exists s',
    main_drain mice_fd (shorts ++ rq) this s = main_drain mice_fd rq this s'
    /\ trace s' = trace s ++ map EvRead shorts
    /\ stdout s' = stdout s
    /\ ticks s' = ticks s.
Proof.
  intros H. revert s. induction H as [|r shorts Hr _ IH]; intros s.
  - exists s. cbn. now rewrite app_nil_r.
  - cbn [app]. rewrite main_drain_short by exact Hr.
    destruct (IH (log (EvRead r) s)) as (s' & E & Ht & Ho & Hk).
    exists s'. split; [exact E|]. split; [|split].
    + rewrite Ht. cbn [log trace map]. now rewrite <- app_assoc.
    + rewrite Ho. now apply stdout_log_silent.
    + exact Hk.
Qed.

Lemma main_loop_idle_select (mice_fd : Z) (sel : select_ret)
    (sq : list select_ret) (rq : list read_ret) (this : ButtonProcess)
    (s : Sys) :
  idle_select sel ->
  main_loop mice_fd (sel :: sq) rq this s =
    match Timer this (log (EvSelect sel) s) with
    | (Ok this', s') => main_loop mice_fd sq rq this' s'
    | (AssertFail, s') => (Aborted, s')
    end.
Proof.
  intros [H E]. cbn [main_loop]. apply Z.ltb_ge in H. now rewrite H, E.
Qed.

Lemma main_loop_timeouts_early (mice_fd : Z) (B : Z) (armed_at : timeval)
    (sels sq : list select_ret) (rq : list read_ret) :
  Forall idle_select sels ->
  forall s,
    (forall k, (k < List.length sels)%nat ->
               tv_interval_ms (clock s (ticks s + k)) armed_at < 300) ->
    exists s',
      main_loop mice_fd (sels ++ sq) rq (Pending B armed_at) s
        = main_loop mice_fd sq rq (Pending B armed_at) s'
      /\ stdout s' = stdout s /\ clock s' = clock s
      /\ ticks s' = (ticks s + List.length sels)%nat.
Proof.
  induction 1 as [|sel sels Hsel _ IH]; intros s Hw.
  - exists s. cbn. repeat split. lia.
  - cbn [app]. rewrite main_loop_idle_select by exact Hsel.
    rewrite Timer_pending_early.
    2:{ cbn [log clock ticks]. specialize (Hw 0%nat).
        rewrite Nat.add_0_r in Hw. apply Hw. cbn. lia. }
    destruct (IH (snd (gettimeofday (log (EvSelect sel) s))))
      as (s' & E & Ho & Hc & Hk).
    { intros k Hk. cbn [gettimeofday snd log clock ticks].
      replace (S (ticks s) + k)%nat with (ticks s + S k)%nat by lia.
      apply Hw. cbn. lia. }
    exists s'. split; [exact E|]. split; [|split].
    + rewrite Ho, stdout_gettimeofday. now apply stdout_log_silent.
    + rewrite Hc. reflexivity.
    + rewrite Hk. cbn. lia.
Qed.

(** X9. The deadline is served by time-outs of [select] alone: while a
    button is pending and [select] keeps timing out, the loop prints
    nothing as long as [Timer] reads a time inside the window, and prints
    the single click of the pending button, once, in the first iteration
    whose reading is 300 ms or more after the press; no [read] is made. *)
Theorem main_loop_timeouts_single_click (mice_fd : Z) (B : Z)
    (armed_at : timeval) (sels : list select_ret) (sel : select_ret)
    (sq : list select_ret) (rq : list read_ret) (s : Sys) :
  B = BTN_LEFT \/ B = BTN_RIGHT ->
  Forall idle_select sels -> idle_select sel ->
  (forall k, (k < List.length sels)%nat ->
             tv_interval_ms (clock s (ticks s + k)) armed_at < 300) ->
  300 <= tv_interval_ms (clock s (ticks s + List.length sels)) armed_at ->
  exists s',
    main_loop mice_fd (sels ++ sel :: sq) rq (Pending B armed_at) s
      = main_loop mice_fd sq rq (Reset armed_at) s'
    /\ stdout s'
       = stdout s ++ [if B =? BTN_LEFT then line "<" else line ">"]
    /\ ticks s' = S (ticks s + List.length sels).
Proof.
  intros HB Hsels Hsel Hearly Hlate.
  destruct (main_loop_timeouts_early mice_fd B armed_at sels (sel :: sq) rq
              Hsels s Hearly) as (s1 & E & Ho & Hc & Hk).
  rewrite E, main_loop_idle_select by exact Hsel.
  rewrite Timer_pending_late.
  - eexists. split; [reflexivity|]. split.
    + rewrite stdout_log_printf, stdout_gettimeofday.
      rewrite stdout_log_silent by reflexivity. now rewrite Ho.
    + cbn. now rewrite Hk.
  - exact HB.
  - cbn [log clock ticks]. now rewrite Hc, Hk.
Qed.

(** X10. Only the three button bits of byte 0 are looked at: two reports
    that differ in the other five bits of byte 0 (the bit that is always
    set, the sign and the overflow flags) are treated alike. *)
Theorem main_dispatch_flags_ignored (mice_fd : Z) (b0 b0' b1 b2 b3 : byte)
    (this : ButtonProcess) (s : Sys) :
  bit 0 b0 = bit 0 b0' -> bit 1 b0 = bit 1 b0' -> bit 2 b0 = bit 2 b0' ->
  main_dispatch mice_fd (overlay [b0; b1; b2; b3]) this s
    = main_dispatch mice_fd (overlay [b0'; b1; b2; b3]) this s.
Proof.
  intros H0 H1 H2. unfold main_dispatch, overlay, byte_at.
  cbn [nth btn_left btn_right btn_middle x y z].
  now rewrite H0, H1, H2.
Qed.


(** X12. The wheel is read off byte 3 alone: a full-size read whose last
    byte is 1..127 prints "9" and one whose last byte is 128..255 prints
    "0", whatever the other three bytes are, and the drain goes on. *)
Theorem main_drain_wheel_byte (mice_fd : Z) (r : read_ret)
    (b0 b1 b2 b3 : byte) (rq : list read_ret) (this : ButtonProcess)
    (s : Sys) :
  nLen r = sizeof_data -> rd_data r = [b0; b1; b2; b3] ->
  (1 <= byte_value b3 <= 127 ->
     main_drain mice_fd (r :: rq) this s
       = main_drain mice_fd rq this
           (log (EvPrintf (line "9")) (log (EvRead r) s)))
  /\ (128 <= byte_value b3 <= 255 ->
     main_drain mice_fd (r :: rq) this s
       = main_drain mice_fd rq this
           (log (EvPrintf (line "0")) (log (EvRead r) s))).
Proof.
  intros Hn Hd.
  assert (Hz : z (overlay (rd_data r)) = signed_char b3).
  { rewrite Hd. reflexivity. }
  split; intros Hb; rewrite main_drain_full_size by exact Hn;
    rewrite main_dispatch_wheel; unfold wheel_line; rewrite ?Hz;
    rewrite signed_char_value.
  - assert (E : (byte_value b3 <? 128) = true) by (apply Z.ltb_lt; lia).
    rewrite E.
    assert (E' : (byte_value b3 >? 0) = true) by (apply Z.gtb_lt; lia).
    now rewrite E'.
  - assert (E : (byte_value b3 <? 128) = true) by (apply Z.ltb_lt; lia).
    rewrite E. lia.
  - assert (E : (byte_value b3 <? 128) = false) by (apply Z.ltb_ge; lia).
    rewrite E.
    assert (E' : (byte_value b3 - 256 >? 0) = false).
    { rewrite Z.gtb_ltb. apply Z.ltb_ge. lia. }
    now rewrite E'.
  - assert (E : (byte_value b3 <? 128) = false) by (apply Z.ltb_ge; lia).
    rewrite E. lia.
Qed.

(** ** The calls of a whole run *)

Ltac steady_print := cbn [steady In]; tauto.

Ltac trace_assoc :=
  cbn [log trace]; rewrite <- ?app_assoc; cbn [app];
  rewrite <- ?app_assoc; reflexivity.

Lemma Button_steps (type : Z) (this : ButtonProcess) (s : Sys) :
  type = BTN_LEFT \/ type = BTN_RIGHT ->
  well_formed this ->
  exists r this' s',
    Button type this s = (Ok (r, this'), s') /\ well_formed this' /\
    ((r = true /\ exists e, trace s' = trace s ++ [e] /\ steady e) \/
     (r = false /\ trace s' = trace s ++ [EvPrintf (line "q")])).
Proof.
  intros Ht Hw. destruct this as [pre cur tm].
  destruct Hw as [[Hp Hb] | [Hp Hb]]; cbn in Hp, Hb; subst tm.
  - subst pre. destruct Ht as [-> | ->];
      (do 3 eexists; split; [reflexivity|]; split;
       [right; split; [cbn; tauto | reflexivity]|];
       left; split; [reflexivity|]; eexists; split; [reflexivity|];
       exact I).
  - destruct Hp as [-> | ->], Ht as [-> | ->];
      (do 3 eexists; split; [reflexivity|]; split;
       [left; split; reflexivity|]);
      first [ right; split; reflexivity
            | left; split; [reflexivity|]; eexists; split;
              [reflexivity | steady_print] ].
Qed.

Lemma Timer_steps (this : ButtonProcess) (s : Sys) :
  well_formed this ->
  exists this' s',
    Timer this s = (Ok this', s') /\ well_formed this' /\
    exists evs, trace s' = trace s ++ evs /\ Forall steady evs.
Proof.
  intros Hw. destruct this as [pre cur tm].
  destruct Hw as [[Hp Hb] | [Hp Hb]]; cbn in Hp, Hb; subst tm.
  - run_proc. do 2 eexists. split; [reflexivity|]. split; [left; now split|].
    exists []. split; [now rewrite app_nil_r | constructor].
  - run_proc. unfold gettimeofday at 1.
    destruct (300 <=? tv_interval_ms (clock s (ticks s)) cur).
    + destruct Hp as [-> | ->]; cbn;
        (do 2 eexists; split; [reflexivity|]; split;
         [left; split; reflexivity|]; eexists; split;
         [unfold log; cbn [trace]; rewrite <- app_assoc; reflexivity|];
         constructor; [exact I|]; constructor; [steady_print | constructor]).
    + do 2 eexists. split; [reflexivity|]. split; [right; now split|].
      eexists. split; [reflexivity|]. constructor; [exact I | constructor].
Qed.

Lemma main_dispatch_steps (mice_fd : Z) (data : imps2_data)
    (this : ButtonProcess) (s : Sys) :
  well_formed this ->
  (exists this' s' evs,
     main_dispatch mice_fd data this s = (Ok (Next this'), s') /\
     well_formed this' /\ trace s' = trace s ++ evs /\ Forall steady evs)
  \/
  (exists s',
     main_dispatch mice_fd data this s = (Ok (Return 0), s') /\
     trace s' = trace s ++ [EvPrintf (line "q"); EvClose mice_fd]).
Proof.
  intros Hw.
  assert (Hpass : forall type, type = BTN_LEFT \/ type = BTN_RIGHT ->
    (exists this' s' evs,
       pass_to_classifier mice_fd type this s = (Ok (Next this'), s') /\
       well_formed this' /\ trace s' = trace s ++ evs /\ Forall steady evs)
    \/
    (exists s',
       pass_to_classifier mice_fd type this s = (Ok (Return 0), s') /\
       trace s' = trace s ++ [EvPrintf (line "q"); EvClose mice_fd])).
  { intros type Ht.
    destruct (Button_steps type this s Ht Hw)
      as (r & this' & s' & E & Hw' & [[-> (e & Htr & He)] | [-> Htr]]);
      [left | right]; unfold pass_to_classifier, bind at 1; rewrite E;
      cbn [fst snd negb].
    - exists this', s', [e]. repeat split; try assumption. now constructor.
    - eexists. split; [reflexivity|].
      unfold log; cbn [trace]. rewrite Htr, <- app_assoc. reflexivity. }
  assert (Hsame : exists this' s' evs,
             (Ok (Next this), s) = (Ok (Next this'), s') /\
             well_formed this' /\ trace s' = trace s ++ evs /\
             Forall steady evs).
  { exists this, s, []. repeat split; try assumption;
      [now rewrite app_nil_r | constructor]. }
  assert (Hprint : forall l,
             In l [line "z"; line "x"; line "<"; line ">"; line "p";
                   line "9"; line "0"] ->
             exists this' s' evs,
               (Ok (Next this), log (EvPrintf l) s) = (Ok (Next this'), s') /\
               well_formed this' /\ trace s' = trace s ++ evs /\
               Forall steady evs).
  { intros l Hl. exists this, (log (EvPrintf l) s), [EvPrintf l].
    repeat split; try assumption. constructor; [exact Hl | constructor]. }
  unfold main_dispatch.
  destruct ((z data =? 0) && (x data =? 0) && (y data =? 0)).
  - destruct (btn_left data); [apply Hpass; now left|].
    destruct (btn_right data); [apply Hpass; now right|].
    destruct (btn_middle data); left; [|exact Hsame].
    apply Hprint. cbn [In]. tauto.
  - left. destruct (negb (z data =? 0)); [|exact Hsame].
    destruct (z data >? 0); apply Hprint; cbn [In]; tauto.
Qed.

Lemma main_drain_shape (mice_fd : Z) (rq : list read_ret) :
  forall this s,
    well_formed this ->
    match main_drain mice_fd rq this s with
    | (Stop o, s') =>
        exists evs tail,
          trace s' = trace s ++ evs ++ tail /\ Forall steady evs /\
          ending mice_fd o tail
    | (Break _ this', s') =>
        well_formed this' /\
        exists evs, trace s' = trace s ++ evs /\ Forall steady evs
    end.
Proof.
  induction rq as [|r rq IH]; intros this s Hw; cbn [main_drain].
  - exists [], []. split; [now rewrite app_nil_r|].
    split; constructor.
  - destruct (nLen r =? 0) eqn:E0.
    { exists [], [EvRead r]. split; [reflexivity|]. split; [constructor|].
      constructor. left. now apply Z.eqb_eq. }
    apply Z.eqb_neq in E0.
    destruct (nLen r =? -1) eqn:E1.
    { apply Z.eqb_eq in E1.
      destruct (rd_errno r =? EAGAIN) eqn:Ee; cbn [negb].
      - apply Z.eqb_eq in Ee. split; [exact Hw|]. exists [EvRead r].
        split; [reflexivity|]. constructor; [|constructor].
        cbn. tauto.
      - apply Z.eqb_neq in Ee. exists [], [EvRead r].
        split; [reflexivity|]. split; [constructor|].
        constructor. tauto. }
    apply Z.eqb_neq in E1.
    assert (Hr : steady (EvRead r)) by (cbn; tauto).
    assert (Hnext : forall this' s' evs,
               well_formed this' ->
               trace s' = trace (log (EvRead r) s) ++ evs ->
               Forall steady evs ->
               match main_drain mice_fd rq this' s' with
               | (Stop o, s'') =>
                   exists evs0 tail,
                     trace s'' = trace s ++ evs0 ++ tail /\
                     Forall steady evs0 /\ ending mice_fd o tail
               | (Break _ this'', s'') =>
                   well_formed this'' /\
                   exists evs0, trace s'' = trace s ++ evs0 /\
                                Forall steady evs0
               end).
    { intros this' s' evs Hw' Htr Hev.
      pose proof (IH this' s' Hw') as H.
      destruct (main_drain mice_fd rq this' s') as [[rq' this'' | o] s''].
      - destruct H as (Hw'' & evs0 & Ht & Hs). split; [exact Hw''|].
        exists (EvRead r :: evs ++ evs0). split.
        + rewrite Ht, Htr. trace_assoc.
        + constructor; [exact Hr|]. apply Forall_app. now split.
      - destruct H as (evs0 & tail & Ht & Hs & He).
        exists (EvRead r :: evs ++ evs0), tail. split; [|split].
        + rewrite Ht, Htr. trace_assoc.
        + constructor; [exact Hr|]. apply Forall_app. now split.
        + exact He. }
    destruct (nLen r =? sizeof_data).
    + destruct (main_dispatch_steps mice_fd (overlay (rd_data r)) this
                  (log (EvRead r) s) Hw)
        as [(this' & s' & evs & E & Hw' & Htr & Hev) | (s' & E & Htr)];
        rewrite E.
      * now apply (Hnext this' s' evs).
      * exists [EvRead r], [EvPrintf (line "q"); EvClose mice_fd].
        split; [|split].
        -- rewrite Htr. trace_assoc.
        -- constructor; [exact Hr | constructor].
        -- constructor.
    + apply (Hnext this (log (EvRead r) s) []); [exact Hw| |constructor].
      now rewrite app_nil_r.
Qed.

Lemma main_loop_shape (mice_fd : Z) (sq : list select_ret) :
  forall rq this s,
    well_formed this ->
    exists evs tail,
      trace (snd (main_loop mice_fd sq rq this s)) = trace s ++ evs ++ tail
      /\ Forall steady evs
      /\ ending mice_fd (fst (main_loop mice_fd sq rq this s)) tail.
Proof.
  induction sq as [|sel sq IH]; intros rq this s Hw; cbn [main_loop].
  - exists [], []. split; [now rewrite app_nil_r|]. split; constructor.
  - destruct (sel_ret sel <? 0) eqn:Es.
    { exists [], [EvSelect sel]. split; [reflexivity|].
      split; [constructor|]. constructor. now apply Z.ltb_lt. }
    apply Z.ltb_ge in Es.
    assert (Hstep : forall rq' this' s' evs,
               well_formed this' ->
               trace s' = trace (log (EvSelect sel) s) ++ evs ->
               Forall steady evs ->
               exists evs0 tail,
                 trace (snd (match Timer this' s' with
                             | (Ok b, s'') => main_loop mice_fd sq rq' b s''
                             | (AssertFail, s'') => (Aborted, s'')
                             end)) = trace s ++ evs0 ++ tail
                 /\ Forall steady evs0
                 /\ ending mice_fd
                      (fst (match Timer this' s' with
                            | (Ok b, s'') => main_loop mice_fd sq rq' b s''
                            | (AssertFail, s'') => (Aborted, s'')
                            end)) tail).
    { intros rq' this' s' evs Hw' Htr Hev.
      destruct (Timer_steps this' s' Hw')
        as (b & s'' & E & Hb & evs1 & Htr1 & Hev1).
      rewrite E.
      destruct (IH rq' b s'' Hb) as (evs2 & tail & Ht & Hs & He).
      exists (EvSelect sel :: evs ++ evs1 ++ evs2), tail.
      split; [|split].
      - rewrite Ht, Htr1, Htr. trace_assoc.
      - constructor; [exact Es|]. repeat (apply Forall_app; split);
          assumption.
      - exact He. }
    destruct (sel_isset sel).
    + pose proof (main_drain_shape mice_fd rq this (log (EvSelect sel) s) Hw)
        as Hd.
      destruct (main_drain mice_fd rq this (log (EvSelect sel) s))
        as [[rq' this' | o] s'].
      * destruct Hd as (Hw' & evs & Htr & Hev). now apply (Hstep rq' this' s' evs).
      * destruct Hd as (evs & tail & Htr & Hev & He).
        exists (EvSelect sel :: evs), tail. split; [|split].
        -- cbn [snd]. rewrite Htr. trace_assoc.
        -- constructor; assumption.
        -- exact He.
    + apply (Hstep rq this (log (EvSelect sel) s) []); [exact Hw| |constructor].
      now rewrite app_nil_r.
Qed.

Lemma main_run_shape (dev : Device) (clk : nat -> timeval) :
  main_trace dev (fst (main dev (boot clk)))
    (trace (snd (main dev (boot clk)))).
Proof.
  unfold main.
  destruct (open_ret dev =? -1) eqn:Eo.
  { apply Z.eqb_eq in Eo. now apply trace_open_failed. }
  apply Z.eqb_neq in Eo.
  destruct (write_ret dev <? 0) eqn:Ew.
  { apply Z.ltb_lt in Ew. now apply trace_write_failed. }
  apply Z.ltb_ge in Ew.
  destruct (main_loop_shape (open_ret dev) (select_q dev) (read_q dev)
              ButtonProcess_new
              (log (EvWrite (write_ret dev))
                 (log (EvOpen (open_ret dev)) (boot clk))))
    as (evs & tail & Ht & Hs & He); [left; split; reflexivity|].
  rewrite Ht. cbn [log boot trace app].
  now apply trace_loop.
Qed.

Lemma steady_stdout (evs : list event) :
  Forall steady evs ->
  Forall (fun l => In l [line "z"; line "x"; line "<"; line ">"; line "p";
                         line "9"; line "0"]) (stdout_of evs).
Proof.
  induction 1 as [|e evs He _ IH]; [constructor|].
  change (stdout_of (e :: evs)) with (printed e ++ stdout_of evs).
  apply Forall_app. split; [|exact IH].
  destruct e; try constructor; [exact He | constructor].
Qed.

Lemma steady_no_quit (evs : list event) :
  Forall steady evs -> ~ In (line "q") (stdout_of evs).
Proof.
  intros Hs Hin. pose proof (steady_stdout evs Hs) as H.
  rewrite Forall_forall in H. specialize (H _ Hin).
  cbn [In] in H. repeat (destruct H as [H | H]; [discriminate H|]).
  exact H.
Qed.

Lemma steady_no_close (evs : list event) (fd : Z) :
  Forall steady evs -> ~ In (EvClose fd) evs.
Proof.
  intros Hs Hin. rewrite Forall_forall in Hs. exact (Hs _ Hin).
Qed.

Lemma ending_stdout (mice_fd : Z) (o : outcome) (tail : list event) :
  ending mice_fd o tail ->
  (o = Exit 0 /\ stdout_of tail = [line "q"]) \/
  (o <> Exit 0 /\ stdout_of tail = []).
Proof.
  destruct 1; [right | right | right | left]; split;
    try reflexivity; discriminate.
Qed.

Lemma last_occurrence (q : string) (body pre post : list string) :
  ~ In q body -> pre ++ q :: post = body ++ [q] -> pre = body /\ post = [].
Proof.
  revert pre. induction body as [|b body IH]; intros pre Hn H.
  - destruct pre as [|p pre]; cbn in H.
    + inversion H. now split.
    + inversion H as [[Hp Hr]]. destruct pre; discriminate Hr.
  - destruct pre as [|p pre]; cbn in H.
    + inversion H as [[Hq Hr]]. elim Hn. now left.
    + inversion H as [[Hp Hr]]. subst p.
      destruct (IH pre) as [-> ->]; [|exact Hr|now split].
      intros Hin. apply Hn. now right.
Qed.

(** X13. The calls of every run, in order: [open]; if it gave a
    descriptor, the mode-switch [write]; if that did not fail, a sequence
    of successful [select], [read], [gettimeofday] and output calls (each
    line one of "z", "x", "<", ">", "p", "9", "0"), ended by nothing when
    the script runs out, by one failing [select] or [read] with status 1,
    or by the line "q" and the [close] with status 0. *)
Theorem main_trace_shape (dev : Device) (clk : nat -> timeval) :
  let r := main dev (boot clk) in
  main_trace dev (fst r) (trace (snd r))
  /\ exists rest, trace (snd r) = EvOpen (open_ret dev) :: rest.
Proof.
  intros r. pose proof (main_run_shape dev clk) as H. fold r in H.
  split; [exact H|].
  destruct H; eexists; reflexivity.
Qed.

(** X14. Whatever the device does, every line a run prints is one of the
    eight lines of the header comment: "z", "x", "<", ">", "p", "9", "0"
    and "q", each followed by a newline. *)
Theorem main_stdout_symbols (dev : Device) (clk : nat -> timeval) :
  Forall (fun l => In l symbols) (stdout (snd (main dev (boot clk)))).
Proof.
  assert (Hsym : forall evs, Forall steady evs ->
                 Forall (fun l => In l symbols) (stdout_of evs)).
  { intros evs Hs. eapply Forall_impl; [|apply steady_stdout, Hs].
    intros l Hl. unfold symbols. cbn [In] in *. tauto. }
  unfold stdout.
  destruct (main_run_shape dev clk) as [Ho | Ho Hw | o evs tail Ho Hw Hs He].
  - constructor.
  - constructor.
  - change (stdout_of (EvOpen (open_ret dev)
                         :: EvWrite (write_ret dev) :: evs ++ tail))
      with (stdout_of (evs ++ tail)).
    rewrite stdout_of_app. apply Forall_app. split; [now apply Hsym|].
    destruct (ending_stdout _ _ _ He) as [[_ ->] | [_ ->]];
      [|constructor].
    constructor; [|constructor]. unfold symbols. cbn [In]. tauto.
Qed.

(** X15. The line "q" is the last thing a run prints and it is printed
    at most once: wherever "q" occurs on standard output, nothing follows
    it, it does not occur before, and the run ended with status 0. *)
Theorem main_quit_is_last (dev : Device) (clk : nat -> timeval)
    (pre post : list string) :
  stdout (snd (main dev (boot clk))) = pre ++ line "q" :: post ->
  post = [] /\ ~ In (line "q") pre /\ fst (main dev (boot clk)) = Exit 0.
Proof.
  unfold stdout.
  destruct (main_run_shape dev clk) as [Ho | Ho Hw | o evs tail Ho Hw Hs He].
  - intros H. destruct pre; discriminate H.
  - intros H. destruct pre; discriminate H.
  - change (stdout_of (EvOpen (open_ret dev)
                         :: EvWrite (write_ret dev) :: evs ++ tail))
      with (stdout_of (evs ++ tail)).
    rewrite stdout_of_app. intros H.
    pose proof (steady_no_quit evs Hs) as Hn.
    destruct (ending_stdout _ _ _ He) as [[-> Et] | [_ Et]]; rewrite Et in H.
    + symmetry in H. destruct (last_occurrence _ _ _ _ Hn H) as [-> ->].
      now repeat split.
    + rewrite app_nil_r in H. elim Hn. rewrite H.
      apply in_or_app. right. now left.
Qed.

(** X16. The device is closed only on the quit gesture: [close] is called
    on the descriptor [open] returned, as the last call of a run that
    ends with status 0, and in no other run; in particular a run that ends
    with status 1 leaves the descriptor open. *)
Theorem main_close_only_on_quit (dev : Device) (clk : nat -> timeval) :
  let r := main dev (boot clk) in
  (forall fd, In (EvClose fd) (trace (snd r)) ->
              fst r = Exit 0 /\ fd = open_ret dev)
  /\ (fst r = Exit 0 ->
      exists t, trace (snd r) = t ++ [EvClose (open_ret dev)] /\
                forall fd, ~ In (EvClose fd) t)
  /\ (fst r = Exit 1 -> forall fd, ~ In (EvClose fd) (trace (snd r))).
Proof.
  intros r.
  assert (Hin : forall fd, In (EvClose fd) (trace (snd r)) ->
                           fst r = Exit 0 /\ fd = open_ret dev).
  { subst r.
    destruct (main_run_shape dev clk) as [Ho | Ho Hw | o evs tail Ho Hw Hs He];
      intros fd H.
    - destruct H as [H | []]. discriminate H.
    - destruct H as [H | [H | []]]; discriminate H.
    - destruct H as [H | [H | H]]; try discriminate H.
      apply in_app_or in H. destruct H as [H | H];
        [elim (steady_no_close _ _ Hs H)|].
      destruct He; cbn [In] in H;
        repeat (destruct H as [H | H]; try discriminate H); try contradiction.
      inversion H. now split. }
  split; [exact Hin|]. split.
  - subst r.
    destruct (main_run_shape dev clk) as [Ho | Ho Hw | o evs tail Ho Hw Hs He];
      intros E; try discriminate E.
    destruct He; try discriminate E.
    exists (EvOpen (open_ret dev) :: EvWrite (write_ret dev)
              :: evs ++ [EvPrintf (line "q")]).
    split.
    + cbn [app]. rewrite <- app_assoc. reflexivity.
    + intros fd H. destruct H as [H | [H | H]]; try discriminate H.
      apply in_app_or in H. destruct H as [H | H];
        [elim (steady_no_close _ _ Hs H)|].
      destruct H as [H | []]. discriminate H.
  - intros E fd H. destruct (Hin fd H) as [E0 _]. rewrite E0 in E.
    discriminate E.
Qed.

(** ** Instances of the further properties *)

Lemma tv_interval_ms_no_overflow_witness :
  tv_ms t_huge_late <> tv_plain_ms t_huge_late /\
  tv_interval_ms t_huge_late t_huge = 300.
Proof.
  split; [apply Z.eqb_neq; vm_compute; reflexivity|].
  rewrite (tv_interval_ms_no_overflow t_huge_late t_huge).
  - reflexivity.
  - vm_compute. split; [discriminate | reflexivity].
Defined.

Lemma tv_interval_ms_microseconds_witness :
  tv_microseconds t_late - tv_microseconds t_armed = 300000 /\
  300 <= tv_interval_ms t_late t_armed.
Proof.
  split; [reflexivity|].
  assert (R : forall tv, tv = t_late \/ tv = t_armed -> realistic tv).
  { intros tv [-> | ->]; vm_compute; repeat split; discriminate. }
  destruct (tv_interval_ms_microseconds t_late t_armed
              (R _ (or_introl eq_refl)) (R _ (or_intror eq_refl)))
    as (_ & H & _).
  apply H. vm_compute. discriminate.
Defined.

Lemma overlay_injective_witness :
  rd_data wheel_up = [x08; x00; x00; xff].
Proof.
  exact (overlay_injective x08 x00 x00 xff x08 x00 x00 xff eq_refl).
Defined.

Lemma Button_type_checked_witness :
  Button BTN_NULL ButtonProcess_new (boot (clock_at t_armed))
    = (AssertFail, boot (clock_at t_armed)).
Proof.
  apply (proj2 (Button_type_checked BTN_NULL ButtonProcess_new
                  (boot (clock_at t_armed)))); discriminate.
Defined.

Lemma Button_times_pairs_witness :
  exists this' s',
    Button_times 3 BTN_LEFT ButtonProcess_new (boot (clock_at t_armed))
      = (Ok this', s')
    /\ stdout s' = [line "z"]
    /\ exists armed_at, this' = Pending BTN_LEFT armed_at.
Proof.
  exact (Button_times_pairs BTN_LEFT 3 ButtonProcess_new
           (boot (clock_at t_armed)) (or_introl eq_refl)
           (conj eq_refl eq_refl)).
Defined.

Lemma press_then_deadline_witness :
  exists s',
    (r <- Button BTN_RIGHT ButtonProcess_new ;; Timer_times 4 (snd r))
      (boot (clock_list [t_armed] t_late))
    = (Ok (Reset t_armed), s')
    /\ stdout s' = [line ">"]
    /\ ticks s' = 2%nat.
Proof.
  apply (press_then_deadline BTN_RIGHT 3 ButtonProcess_new
           (boot (clock_list [t_armed] t_late)) (or_intror eq_refl)
           (conj eq_refl eq_refl)).
  apply Z.leb_le. vm_compute. reflexivity.
Defined.

Lemma main_drain_short_reads_witness :
  exists s',
    main_drain 3 ([ack] ++ [would_block]) ButtonProcess_new
      (boot (clock_at t_armed))
    = main_drain 3 [would_block] ButtonProcess_new s'
    /\ trace s' = trace (boot (clock_at t_armed)) ++ map EvRead [ack]
    /\ stdout s' = stdout (boot (clock_at t_armed))
    /\ ticks s' = ticks (boot (clock_at t_armed)).
Proof.
  apply main_drain_short_reads.
  constructor; [|constructor].
  unfold short_read. cbn. repeat split; discriminate.
Defined.

Lemma main_loop_timeouts_single_click_witness :
  exists s',
    main_loop 3 ([timed_out; timed_out] ++ timed_out :: [ready])
      [would_block] (Pending BTN_LEFT t_armed)
      (boot (clock_list [t_armed; t_early] t_late))
    = main_loop 3 [ready] [would_block] (Reset t_armed) s'
    /\ stdout s' = [line "<"]
    /\ ticks s' = 3%nat.
Proof.
  assert (Hidle : idle_select timed_out).
  { split; [vm_compute; discriminate | reflexivity]. }
  apply (main_loop_timeouts_single_click 3 BTN_LEFT t_armed
           [timed_out; timed_out] timed_out [ready] [would_block]
           (boot (clock_list [t_armed; t_early] t_late))
           (or_introl eq_refl)).
  - repeat constructor; apply Hidle.
  - exact Hidle.
  - intros k Hk. destruct k as [|[|k]].
    + vm_compute. reflexivity.
    + vm_compute. reflexivity.
    + cbn in Hk. lia.
  - apply Z.leb_le. vm_compute. reflexivity.
Defined.

Lemma main_dispatch_flags_ignored_witness :
  main_dispatch 3 (overlay [x09; x00; x00; x00]) ButtonProcess_new
    (boot (clock_at t_armed))
  = main_dispatch 3 (overlay [xf9; x00; x00; x00]) ButtonProcess_new
      (boot (clock_at t_armed)).
Proof.
  apply main_dispatch_flags_ignored; reflexivity.
Defined.


Lemma main_drain_wheel_byte_witness :
  main_drain 3 [wheel_up; would_block] ButtonProcess_new
    (boot (clock_at t_armed))
  = main_drain 3 [would_block] ButtonProcess_new
      (log (EvPrintf (line "0"))
         (log (EvRead wheel_up) (boot (clock_at t_armed)))).
Proof.
  apply (proj2 (main_drain_wheel_byte 3 wheel_up x08 x00 x00 xff
                  [would_block] ButtonProcess_new (boot (clock_at t_armed))
                  eq_refl eq_refl)).
  vm_compute. split; discriminate.
Defined.

Lemma main_quit_is_last_witness :
  fst (main (device [ready] [left_press; right_press; would_block])
         (boot (clock_at t_armed)))
    = Exit 0.
Proof.
  apply (main_quit_is_last
           (device [ready] [left_press; right_press; would_block])
           (clock_at t_armed) [] []).
  vm_compute. reflexivity.
Defined.

Lemma main_close_only_on_quit_witness :
  fst (main (device [ready] [left_press; mk_read_ret 0 0 []])
         (boot (clock_at t_armed))) = Exit 1
  /\
  ~ In (EvClose 3)
      (trace (snd (main (device [ready] [left_press; mk_read_ret 0 0 []])
                     (boot (clock_at t_armed))))).
Proof.
  assert (E : fst (main (device [ready] [left_press; mk_read_ret 0 0 []])
                     (boot (clock_at t_armed))) = Exit 1).
  { vm_compute. reflexivity. }
  split; [exact E|].
  exact (proj2 (proj2 (main_close_only_on_quit
                         (device [ready] [left_press; mk_read_ret 0 0 []])
                         (clock_at t_armed))) E 3).
Defined.
